(** * github-readme-stats fetchers: a shallow embedding

    The development embeds the two fetchers of the repository,
    [src/fetchers/stats-fetcher.js] and [src/fetchers/top-languages-fetcher.js],
    and the earlier revision of the latter that still aggregates the fetched
    languages ([unnamed/part_000], lines 1-217), and checks the statements
    of the specification against them.  (The second revision kept in
    [part_000], lines 218-375, has the code of the current file around
    another literal table.  [totalCommitsFetcher] is defined in
    [stats-fetcher.js] but neither called nor exported.)

    Conventions.
    - JavaScript numbers that hold language sizes and counters are IEEE
      binary64 values: they are modelled by Rocq's primitive floats, whose
      operations are the same binary64 operations.
    - Counts delivered by the GraphQL API (stargazers, pull requests, ...)
      and the integer fields of the statistics record are non-negative
      integers: type [N].
    - A value that may be [undefined] or [null] is an [option].
    - A plain object used as a dictionary is the list of its own
      properties in the order [Object.keys] enumerates them: array-index
      keys first in ascending order, then the other keys in the order they
      were created.  A read of a key that is not an own property falls
      through to the members of [Object.prototype].
    - The transport ([retryer], which wraps [request] and supplies the
      token), [wrapTextMultiline], [Math.pow] and [process.env] are external:
      they are the fields of the [World] of each fetcher.  Every call of
      [retryer] is recorded in a trace.  [logger] calls have no effect on the
      results and are left out.
    - An [async] function is a function in the monad [M]: [await] is its
      bind, a rejected promise is a thrown error.  The [while] loop of the
      walker is followed for a number of iterations given as fuel. *)

From Stdlib Require Import List String Bool Arith NArith ZArith QArith Qround Qabs Lia.
From Stdlib Require Import PrimFloat SpecFloat FloatOps DecimalString.
Import ListNotations.

(** A decimal literal denotes the nearest binary64 value, as it does in
    JavaScript. *)
Set Warnings "-inexact-float".

Close Scope Q_scope.
Local Open Scope string_scope.
Local Open Scope list_scope.

(* ================================================================== *)
(** ** JavaScript values *)

(** A string-valued property that may be absent. *)
Definition JsString := option string.

(** [!!v] for such a value: [undefined], [null] and the empty string are
    falsy. *)
Definition truthy (v : JsString) : bool :=
  match v with
  | Some s => negb (s =? "")
  | None => false
  end.

(** [a || b]. *)
Definition js_or (a b : JsString) : JsString :=
  if truthy a then a else b.

(** [a === "lit"] for a possibly absent string. *)
Definition strict_eq (a : JsString) (lit : string) : bool :=
  match a with
  | Some s => s =? lit
  | None => false
  end.

(* ================================================================== *)
(** ** Errors and outcomes *)

(** The secondary type carried by [CustomError]: the two constants used by
    the fetchers, or the response's [statusText]. *)
Inductive ErrorType : Type :=
| USER_NOT_FOUND
| GRAPHQL_ERROR
| StatusText (s : string).

Inductive JsError : Type :=
| MissingParamError (missedParams : list string)
| CustomError (message : JsString) (type : ErrorType)
| TypeError.

(** What a call does: it returns, it throws, or (for the model of the
    [while] loop) it is still running when the fuel is spent. *)
Inductive Outcome (A : Type) : Type :=
| Returned (a : A)
| Threw (e : JsError)
| OutOfFuel.

Arguments Returned {A} a.
Arguments Threw {A} e.
Arguments OutOfFuel {A}.

(* ================================================================== *)
(** ** The response envelope *)

Record GqlError : Type := mkGqlError {
  type : JsString;
  message : JsString
}.

(** The response envelope is the same for both fetchers; it is generic in
    the shape [U] of the [user] object the query selects. *)
Section Envelope.
Context {U : Type}.

(** [res.data.data]. *)
Record GqlData : Type := mkGqlData { user : option U }.

(** [res.data]: the body of the HTTP response. *)
Record GqlBody : Type := mkGqlBody {
  errors : option (list GqlError);
  data' : option GqlData
}.

(** The Axios response [res]. *)
Record AxiosResponse : Type := mkAxiosResponse {
  statusText : string;
  data : GqlBody
}.

(** [res.data.data.user], [None] where the chain meets an absent value. *)
Definition res_user (res : AxiosResponse) : option U :=
  match data' (data res) with
  | Some d => user d
  | None => None
  end.
End Envelope.

Arguments GqlData U : clear implicits.
Arguments GqlBody U : clear implicits.
Arguments AxiosResponse U : clear implicits.

(* ================================================================== *)
(** ** Requests and the trace of network calls *)

Inductive Query : Type :=
| GRAPHQL_REPOS_QUERY
| GRAPHQL_STATS_QUERY
| TOP_LANGS_QUERY.

Record Variables : Type := mkVariables {
  v_login : JsString;
  v_first : option N;
  v_after : option string;
  v_includeMergedPullRequests : option bool;
  v_includeDiscussions : option bool;
  v_includeDiscussionsAnswers : option bool
}.

Record Request : Type := mkRequest {
  query : Query;
  variables : Variables
}.

(* ================================================================== *)
(** ** A small monad: reader of the world, writer of the trace, errors

    [W] is the world a fetcher runs in and [R] the type of the responses
    of its transport.  The trace has one entry per call of [retryer]: what
    was asked and what came back. *)

Section Monad.
Context {W R : Type}.

Definition Trace : Type := list (Request * R).

Definition M (A : Type) : Type := W -> Trace -> Outcome A * Trace.

Definition ret {A} (a : A) : M A := fun _ t => (Returned a, t).

Definition throw {A} (e : JsError) : M A := fun _ t => (Threw e, t).

Definition out_of_fuel {A} : M A := fun _ t => (OutOfFuel, t).

Definition bind {A B} (m : M A) (k : A -> M B) : M B :=
  fun w t =>
    match m w t with
    | (Returned a, t') => k a w t'
    | (Threw e, t') => (Threw e, t')
    | (OutOfFuel, t') => (OutOfFuel, t')
    end.

(** Read a component of the world. *)
Definition ask {A} (f : W -> A) : M A := fun w t => (Returned (f w), t).

(** One call of the transport: the answer to the [n]-th request of a run
    is [transport w n req]. *)
Definition call (transport : W -> nat -> Request -> R) (req : Request)
  : M R :=
  fun w t =>
    let res := transport w (List.length t) req in
    (Returned res, t ++ [(req, res)]).

(** [try { body } catch (error) { handler }]. *)
Definition try_catch {A} (body : M A) (handler : JsError -> M A) : M A :=
  fun w t =>
    match body w t with
    | (Threw e, t') => handler e w t'
    | r => r
    end.

(** Run a fetcher from an empty trace. *)
Definition run {A} (m : M A) (w : W) : Outcome A * Trace := m w [].
End Monad.

Arguments Trace R : clear implicits.
Arguments M W R A : clear implicits.

Notation "x <- m ;; k" := (bind m (fun x => k))
  (at level 61, m at next level, right associativity).

(* ================================================================== *)
(** ** [src/fetchers/stats-fetcher.js] *)

Module StatsFetcher.

Record TotalCount : Type := mkTotalCount { totalCount : N }.

Module Node.
(** A node of [repositories.nodes]. *)
Record t : Type := mk {
  name : string;
  stargazers : TotalCount
}.
End Node.

Record PageInfo : Type := mkPageInfo {
  hasNextPage : bool;
  endCursor : option string
}.

Record Repositories : Type := mkRepositories {
  nodes : list Node.t;
  pageInfo : PageInfo
}.

Record ContributionsCollection : Type := mkContributionsCollection {
  totalCommitContributions : N;
  totalPullRequestReviewContributions : N
}.

(** The [user] object.  [GRAPHQL_STATS_QUERY] fills every field that its
    [@include] directives allow; [GRAPHQL_REPOS_QUERY] fills
    [repositories] alone. *)
Record User : Type := mkUser {
  name : JsString;
  login : JsString;
  contributionsCollection : option ContributionsCollection;
  repositoriesContributedTo : option TotalCount;
  pullRequests : option TotalCount;
  mergedPullRequests : option TotalCount;
  openIssues : option TotalCount;
  closedIssues : option TotalCount;
  followers : option TotalCount;
  repositoryDiscussions : option TotalCount;
  repositoryDiscussionComments : option TotalCount;
  repositories : Repositories
}.

Definition Response : Type := AxiosResponse User.

Record World : Type := mkWorld {
  (** [process.env.FETCH_MULTI_PAGE_STARS] *)
  FETCH_MULTI_PAGE_STARS : option string;
  (** [retryer(fetcher, variables)]: the answer to the [n]-th request *)
  retryer : nat -> Request -> Response;
  wrapTextMultiline : string -> N -> N -> list string
}.

Definition Fetch (A : Type) : Type := M World Response A.

(** *** Writing into a response *)

Definition set_user (res : Response) (u : User) : Response :=
  {| statusText := statusText res;
     data := {| errors := errors (data res);
                data' := Some {| user := Some u |} |} |}.

Definition set_nodes (u : User) (ns : list Node.t) : User :=
  {| name := name u;
     login := login u;
     contributionsCollection := contributionsCollection u;
     repositoriesContributedTo := repositoriesContributedTo u;
     pullRequests := pullRequests u;
     mergedPullRequests := mergedPullRequests u;
     openIssues := openIssues u;
     closedIssues := closedIssues u;
     followers := followers u;
     repositoryDiscussions := repositoryDiscussions u;
     repositoryDiscussionComments := repositoryDiscussionComments u;
     repositories := {| nodes := ns;
                        pageInfo := pageInfo (repositories u) |} |}.

Definition set_pullRequests (u : User) (c : TotalCount) : User :=
  {| name := name u;
     login := login u;
     contributionsCollection := contributionsCollection u;
     repositoriesContributedTo := repositoriesContributedTo u;
     pullRequests := Some c;
     mergedPullRequests := mergedPullRequests u;
     openIssues := openIssues u;
     closedIssues := closedIssues u;
     followers := followers u;
     repositoryDiscussions := repositoryDiscussions u;
     repositoryDiscussionComments := repositoryDiscussionComments u;
     repositories := repositories u |}.

Definition set_repositoriesContributedTo (u : User) (c : TotalCount)
  : User :=
  {| name := name u;
     login := login u;
     contributionsCollection := contributionsCollection u;
     repositoriesContributedTo := Some c;
     pullRequests := pullRequests u;
     mergedPullRequests := mergedPullRequests u;
     openIssues := openIssues u;
     closedIssues := closedIssues u;
     followers := followers u;
     repositoryDiscussions := repositoryDiscussions u;
     repositoryDiscussionComments := repositoryDiscussionComments u;
     repositories := repositories u |}.

(** *** [fetcher] *)

(** [const query = variables.after ? GRAPHQL_REPOS_QUERY :
    GRAPHQL_STATS_QUERY]. *)
Definition fetcher (variables : Variables) : Request :=
  {| query := if truthy (v_after variables)
              then GRAPHQL_REPOS_QUERY else GRAPHQL_STATS_QUERY;
     variables := variables |}.

(** *** [statsFetcher] *)

Record Args : Type := mkArgs {
  username : JsString;
  includeMergedPullRequests : bool;
  includeDiscussions : bool;
  includeDiscussionsAnswers : bool
}.

Definition mkvariables (args : Args) (after : option string) : Variables :=
  {| v_login := username args;
     v_first := Some 100%N;
     v_after := after;
     v_includeMergedPullRequests := Some (includeMergedPullRequests args);
     v_includeDiscussions := Some (includeDiscussions args);
     v_includeDiscussionsAnswers := Some (includeDiscussionsAnswers args) |}.

(** [stats.data.data.user.repositories.nodes.push(...repoNodes)]. *)
Definition push_nodes (stats : Response) (repoNodes : list Node.t)
  : Fetch Response :=
  match res_user stats with
  | Some u =>
      ret (set_user stats (set_nodes u (nodes (repositories u) ++ repoNodes)))
  | None => throw TypeError
  end.

(** [node.stargazers.totalCount !== 0]. *)
Definition has_stars (node : Node.t) : bool :=
  negb (totalCount (Node.stargazers node) =? 0)%N.

(** The value assigned to [hasNextPage] at the end of an iteration, for a
    page whose [user] object is [u]. *)
Definition next_page (flag : option string) (u : User) : bool :=
  let repoNodes := nodes (repositories u) in
  let repoNodesWithStars := filter has_stars repoNodes in
  strict_eq flag "true"
  && (List.length repoNodes =? List.length repoNodesWithStars)%nat
  && hasNextPage (pageInfo (repositories u)).

(** How the [while] loop is left: by the [return res] inside it, or by
    its condition becoming false. *)
Inductive LoopExit : Type :=
| EarlyReturn (res : Response)
| Completed (stats : Response).

(** The [while (hasNextPage)] loop, entered with [hasNextPage] true.
    [stats] is [None] while the variable is still [undefined]; [after]
    is the current value of the variable [endCursor]. *)
Fixpoint statsFetcher_loop (fuel : nat) (args : Args)
    (stats : option Response) (after : option string)
  : Fetch LoopExit :=
  match fuel with
  | O => out_of_fuel
  | S fuel' =>
      let variables := mkvariables args after in
      res <- call retryer (fetcher variables) ;;
      match errors (data res) with
      | Some _ => ret (EarlyReturn res)
      | None =>
          match res_user res with
          | None => throw TypeError
          | Some u =>
              let repoNodes := nodes (repositories u) in
              stats' <- match stats with
                        | Some s => push_nodes s repoNodes
                        | None => ret res
                        end ;;
              flag <- ask FETCH_MULTI_PAGE_STARS ;;
              if next_page flag u
              then statsFetcher_loop fuel' args (Some stats')
                     (endCursor (pageInfo (repositories u)))
              else ret (Completed stats')
          end
      end
  end.

(** [{ ...node, stargazers: { totalCount:
    Math.min(node.stargazers.totalCount, 2) } }]. *)
Definition cap_stars (node : Node.t) : Node.t :=
  {| Node.name := Node.name node;
     Node.stargazers :=
       {| totalCount := N.min (totalCount (Node.stargazers node)) 2 |} |}.

(** The block under [// Override stats data]. *)
Definition override (stats : Response) : Response :=
  match res_user stats with
  | Some u =>
      let u := set_pullRequests u {| totalCount := 46 |} in
      let u := set_repositoriesContributedTo u {| totalCount := 15 |} in
      let u := set_nodes u (map cap_stars (nodes (repositories u))) in
      set_user stats u
  | None => stats
  end.

Definition statsFetcher (fuel : nat) (args : Args) : Fetch Response :=
  exit <- statsFetcher_loop fuel args None None ;;
  match exit with
  | EarlyReturn res => ret res
  | Completed stats => ret (override stats)
  end.

(** *** [fetchStats] *)

Record Rank : Type := mkRank { level : string; percentile : N }.

Module Stats.
(** The object [stats] built and returned by [fetchStats]. *)
Record t : Type := mk {
  name : JsString;
  totalPRs : N;
  totalPRsMerged : N;
  mergedPRsPercentage : N;
  totalReviews : N;
  totalCommits : N;
  totalIssues : N;
  totalStars : N;
  totalDiscussionsStarted : N;
  totalDiscussionsAnswered : N;
  contributedTo : N;
  rank : Rank
}.

Definition set_name (s : t) (v : JsString) : t :=
  mk v (totalPRs s) (totalPRsMerged s) (mergedPRsPercentage s)
     (totalReviews s) (totalCommits s) (totalIssues s) (totalStars s)
     (totalDiscussionsStarted s) (totalDiscussionsAnswered s)
     (contributedTo s) (rank s).

Definition set_totalPRs (s : t) (v : N) : t :=
  mk (name s) v (totalPRsMerged s) (mergedPRsPercentage s)
     (totalReviews s) (totalCommits s) (totalIssues s) (totalStars s)
     (totalDiscussionsStarted s) (totalDiscussionsAnswered s)
     (contributedTo s) (rank s).

Definition set_totalCommits (s : t) (v : N) : t :=
  mk (name s) (totalPRs s) (totalPRsMerged s) (mergedPRsPercentage s)
     (totalReviews s) v (totalIssues s) (totalStars s)
     (totalDiscussionsStarted s) (totalDiscussionsAnswered s)
     (contributedTo s) (rank s).

Definition set_totalStars (s : t) (v : N) : t :=
  mk (name s) (totalPRs s) (totalPRsMerged s) (mergedPRsPercentage s)
     (totalReviews s) (totalCommits s) (totalIssues s) v
     (totalDiscussionsStarted s) (totalDiscussionsAnswered s)
     (contributedTo s) (rank s).

Definition set_contributedTo (s : t) (v : N) : t :=
  mk (name s) (totalPRs s) (totalPRsMerged s) (mergedPRsPercentage s)
     (totalReviews s) (totalCommits s) (totalIssues s) (totalStars s)
     (totalDiscussionsStarted s) (totalDiscussionsAnswered s)
     v (rank s).

Definition set_rank (s : t) (v : Rank) : t :=
  mk (name s) (totalPRs s) (totalPRsMerged s) (mergedPRsPercentage s)
     (totalReviews s) (totalCommits s) (totalIssues s) (totalStars s)
     (totalDiscussionsStarted s) (totalDiscussionsAnswered s)
     (contributedTo s) v.
End Stats.

(** The object literal assigned to [stats] at the top of [fetchStats]. *)
Definition initial_stats : Stats.t :=
  {| Stats.name := Some "";
     Stats.totalPRs := 46;
     Stats.totalPRsMerged := 40;
     Stats.mergedPRsPercentage := 87;
     Stats.totalReviews := 15;
     Stats.totalCommits := 2100;
     Stats.totalIssues := 0;
     Stats.totalStars := 10;
     Stats.totalDiscussionsStarted := 0;
     Stats.totalDiscussionsAnswered := 0;
     Stats.contributedTo := 15;
     Stats.rank := {| level := "C+"; percentile := 45 |} |}.

(** The string under a value known to be truthy. *)
Definition str (v : JsString) : string :=
  match v with Some s => s | None => "" end.

(** The [if (res.data.errors) { ... }] block: every path throws.
    [errors[0]] of an empty array is [undefined], and reading [.type] of
    it is a [TypeError]. *)
Definition throw_upstream_error {A} (res : Response)
    (errs : list GqlError) : Fetch A :=
  match errs with
  | [] => throw TypeError
  | e0 :: _ =>
      if strict_eq (type e0) "NOT_FOUND"
      then throw (CustomError
                    (js_or (message e0) (Some "Could not fetch user."))
                    USER_NOT_FOUND)
      else if truthy (message e0)
      then wrap <- ask wrapTextMultiline ;;
           throw (CustomError (hd_error (wrap (str (message e0)) 90 1)%N)
                              (StatusText (statusText res)))
      else throw (CustomError
                    (Some ("Something went wrong while trying to retrieve "
                           ++ "the stats data using the GraphQL API.")%string)
                    GRAPHQL_ERROR)
  end.

Definition fetchStats (fuel : nat) (username : JsString)
    (include_all_commits : bool) (exclude_repo : list string)
    (include_merged_pull_requests include_discussions
     include_discussions_answers : bool)
  : Fetch Stats.t :=
  if negb (truthy username)
  then throw (MissingParamError ["username"])
  else
    let stats := initial_stats in
    res <- statsFetcher fuel
             {| username := username;
                includeMergedPullRequests := include_merged_pull_requests;
                includeDiscussions := include_discussions;
                includeDiscussionsAnswers := include_discussions_answers |} ;;
    match errors (data res) with
    | Some errs => throw_upstream_error res errs
    | None =>
        match res_user res with
        | None => throw TypeError
        | Some user =>
            let stats := Stats.set_name stats (js_or (name user) (login user)) in
            (* Always use our predefined values *)
            let stats := Stats.set_totalCommits stats 2100 in
            let stats := Stats.set_totalPRs stats 46 in
            let stats := Stats.set_totalStars stats 10 in
            let stats := Stats.set_contributedTo stats 15 in
            let stats :=
              Stats.set_rank stats {| level := "C+"; percentile := 45 |} in
            let repoToHide := nodup string_dec exclude_repo in
            (* Force total stars to 10 regardless of calculation *)
            let stats := Stats.set_totalStars stats 10 in
            ret stats
        end
    end.

End StatsFetcher.

(* ================================================================== *)
(** ** Objects used as dictionaries, and [Array.prototype.sort] *)

(** An array index is a canonical numeric string below 2^32 - 1. *)
Definition array_index (key : string) : option N :=
  match NilZero.uint_of_string key with
  | Some u =>
      let n := N.of_uint u in
      if (NilZero.string_of_uint (N.to_uint n) =? key) && (n <? 4294967295)%N
      then Some n
      else None
  | None => None
  end.

(** The methods a plain object inherits from [Object.prototype]; each is a
    function whose [name] is the key it stands under. *)
Definition Object_prototype_methods : list string :=
  [ "__defineGetter__"; "__defineSetter__"; "__lookupGetter__";
    "__lookupSetter__"; "hasOwnProperty"; "isPrototypeOf";
    "propertyIsEnumerable"; "toLocaleString"; "toString"; "valueOf" ].

Definition inherits_method (key : string) : bool :=
  existsb (String.eqb key) Object_prototype_methods.

(** [key] names a member of [Object.prototype]: one of the methods,
    [constructor] (the function [Object], whose [name] is "Object") or the
    accessor [__proto__] (which yields [Object.prototype], an object
    without [name]).  All of them are truthy. *)
Definition inherited (key : string) : bool :=
  (key =? "constructor") || (key =? "__proto__") || inherits_method key.

Section Objects.
Context {V : Type}.

(** The own string-keyed properties of an object, in the order of
    enumeration: the array-index keys in ascending numeric order, then the
    other keys in the order of their creation. *)
Definition Obj : Type := list (string * V).

(** The own property [key], if there is one. *)
Fixpoint obj_get (obj : Obj) (key : string) : option V :=
  match obj with
  | [] => None
  | (k, v) :: rest => if k =? key then Some v else obj_get rest key
  end.

(** An existing own property gets a new value and keeps its place. *)
Fixpoint obj_replace (obj : Obj) (key : string) (v : V) : Obj :=
  match obj with
  | [] => []
  | (k, v0) :: rest =>
      if k =? key then (k, v) :: rest else (k, v0) :: obj_replace rest key v
  end.

(** A new array-index key [key], of index [n], goes before the first key
    that is a greater index or no index. *)
Fixpoint obj_insert_index (n : N) (key : string) (v : V) (obj : Obj) : Obj :=
  match obj with
  | [] => [(key, v)]
  | (k, v0) :: rest =>
      match array_index k with
      | Some m =>
          if (m <? n)%N then (k, v0) :: obj_insert_index n key v rest
          else (key, v) :: obj
      | None => (key, v) :: obj
      end
  end.

(** The own property [key] is created or given the value [v]: what
    [{ ...obj, [key]: v }] builds, and what [obj[key] = v] makes of a plain
    object for every key but ["__proto__"].  An existing property keeps
    its place, a new array index goes to its numeric place, any other new
    key goes last. *)
Definition obj_set (obj : Obj) (key : string) (v : V) : Obj :=
  match obj_get obj key with
  | Some _ => obj_replace obj key v
  | None =>
      match array_index key with
      | Some n => obj_insert_index n key v obj
      | None => obj ++ [(key, v)]
      end
  end.

(** [obj[key] = v] for a value [v] that is no object: assigning to
    ["__proto__"] runs the setter inherited from [Object.prototype], which
    ignores such a value. *)
Definition obj_assign_primitive (obj : Obj) (key : string) (v : V) : Obj :=
  if key =? "__proto__" then obj else obj_set obj key v.

(** [Object.keys(obj)], [Object.values(obj)], [Object.entries(obj)]. *)
Definition keys (obj : Obj) : list string := map fst obj.
Definition values (obj : Obj) : list V := map snd obj.
Definition entries (obj : Obj) : list (string * V) := obj.
End Objects.

Arguments Obj V : clear implicits.
Arguments obj_set {V} obj key v : simpl never.

Section Sort.
Context {A : Type}.
Variable compareFn : A -> A -> float.

(** [x], which stood before every element of the sorted [l], goes behind
    those that the comparator puts strictly first.  A comparator result
    that is [NaN] counts as [+0] (SortCompare). *)
Fixpoint sort_insert (x : A) (l : list A) : list A :=
  match l with
  | [] => [x]
  | y :: rest =>
      if (0 <? compareFn x y)%float
      then y :: sort_insert x rest
      else x :: y :: rest
  end.

(** [l.sort(compareFn)]: the sort is stable. *)
Definition js_sort (l : list A) : list A :=
  fold_right sort_insert [] l.
End Sort.

(* ================================================================== *)
(** ** What both revisions of [top-languages-fetcher.js] share *)

Module TopLangs.

Module Lang.
(** [edge.node] *)
Record t : Type := mk { color : JsString; name : string }.
End Lang.

Module Edge.
Record t : Type := mk { size : float; node : Lang.t }.
End Edge.

Record Languages : Type := mkLanguages { edges : list Edge.t }.

Module Repo.
(** A node of [repositories.nodes].  The query selects no [size]. *)
Record t : Type := mk { name : string; languages : Languages }.
End Repo.

Record Repositories : Type := mkRepositories { nodes : list Repo.t }.

Record User : Type := mkUser { repositories : Repositories }.

Definition Response : Type := AxiosResponse User.

Record World : Type := mkWorld {
  (** [retryer(fetcher, variables)]: the answer to the [n]-th request *)
  retryer : nat -> Request -> Response;
  wrapTextMultiline : string -> N -> N -> list string;
  Math_pow : float -> float -> float
}.

Definition Fetch (A : Type) : Type := M World Response A.

Module LangStat.
Record t : Type := mk {
  name : string;
  color : JsString;
  size : float;
  count : float
}.

Definition set_size (l : t) (v : float) : t :=
  mk (name l) (color l) v (count l).
End LangStat.

(** The returned mapping. *)
Definition TopLangData : Type := Obj LangStat.t.

(** [{ login: username }] *)
Definition login_only (username : JsString) : Variables :=
  {| v_login := username;
     v_first := None;
     v_after := None;
     v_includeMergedPullRequests := None;
     v_includeDiscussions := None;
     v_includeDiscussionsAnswers := None |}.

Definition fetcher (variables : Variables) : Request :=
  {| query := TOP_LANGS_QUERY; variables := variables |}.

(** [obj[key].size = f(obj[key].size)] *)
Definition update_size (obj : TopLangData) (key : string)
    (f : LangStat.t -> float) : TopLangData :=
  match obj_get obj key with
  | Some l => obj_set obj key (LangStat.set_size l (f l))
  | None => obj
  end.

(** [obj[key].size], read where [key] is a key of [obj]. *)
Definition size_at (obj : TopLangData) (key : string) : float :=
  match obj_get obj key with
  | Some l => LangStat.size l
  | None => nan
  end.

(** Every entry of a mapping sits under its own name. *)
Definition keyed_by_name (acc : TopLangData) : Prop :=
  forall k l, obj_get acc k = Some l -> LangStat.name l = k.

End TopLangs.

(* ================================================================== *)
(** ** [src/fetchers/top-languages-fetcher.js] *)

Module TopLanguagesFetcher.
Import TopLangs.

Definition lang (name color : string) (size count : float)
  : string * LangStat.t :=
  (name, {| LangStat.name := name; LangStat.color := Some color;
            LangStat.size := size; LangStat.count := count |}).

(** The object literal [customLanguages]. *)
Definition customLanguages : TopLangData :=
  [ lang "Python" "#3572A5" 38.5 15;
    lang "TypeScript" "#2b7489" 14.2 8;
    lang "JavaScript" "#f1e05a" 12.8 7;
    lang "Rust" "#dea584" 8.6 5;
    lang "C++" "#f34b7d" 6.8 4;
    lang "Solidity" "#AA6746" 4.2 3;
    lang "Shell" "#89e051" 3.8 6;
    lang "Go" "#00ADD8" 3.2 2;
    lang "C" "#555555" 2.9 2;
    lang "Dockerfile" "#384d54" 2.1 4;
    lang "PowerShell" "#012456" 1.6 3;
    lang "Makefile" "#427819" 1.3 2 ]%float.

(** [Object.values(o).reduce((acc, curr) => acc + curr.size, 0)] *)
Definition sum_sizes (o : TopLangData) : float :=
  fold_left (fun acc curr => acc + LangStat.size curr)%float (values o) 0%float.

(** The body of the [try] block. *)
Definition top_langs_body : TopLangData :=
  let customLanguages := customLanguages in
  (* Convert bytes to relative percentages *)
  let totalBytes := sum_sizes customLanguages in
  let customLanguages :=
    fold_left
      (fun o key =>
         update_size o key (fun l => (LangStat.size l / totalBytes) * 100)%float)
      (keys customLanguages) customLanguages in
  (* Sort languages by size *)
  let topLangs :=
    fold_left
      (fun acc '(key, value) => obj_set acc key value)
      (js_sort (fun '(_, a) '(_, b) => LangStat.size b - LangStat.size a)%float
               (entries customLanguages))
      [] in
  topLangs.

Definition fetchTopLanguages (username : JsString)
    (exclude_repo : list string) (size_weight count_weight : float)
  : Fetch TopLangData :=
  if negb (truthy username)
  then throw (MissingParamError ["username"])
  else
    try_catch (ret top_langs_body)
              (fun error => throw error).

End TopLanguagesFetcher.

(* ================================================================== *)
(** ** The earlier revision of [top-languages-fetcher.js]
       ([unnamed/part_000], lines 1-217) *)

Module TopLanguagesFetcher_part000.
Import TopLangs.

(** The [if (res.data.errors) { ... }] block: every path throws. *)
Definition throw_upstream_error {A} (res : Response)
    (errs : list GqlError) : Fetch A :=
  match errs with
  | [] => throw TypeError
  | e0 :: _ =>
      if strict_eq (type e0) "NOT_FOUND"
      then throw (CustomError
                    (js_or (message e0) (Some "Could not fetch user."))
                    USER_NOT_FOUND)
      else if truthy (message e0)
      then wrap <- ask wrapTextMultiline ;;
           throw (CustomError
                    (hd_error (wrap (match message e0 with
                                     | Some m => m
                                     | None => ""
                                     end) 90 1)%N)
                    (StatusText (statusText res)))
      else throw (CustomError
                    (Some ("Something went wrong while trying to retrieve "
                           ++ "the language data using the GraphQL API.")%string)
                    GRAPHQL_ERROR)
  end.

(** [exclude_repo.forEach((repoName) => { repoToHide[repoName] = true })] *)
Definition build_repoToHide (exclude_repo : list string) : Obj bool :=
  fold_left (fun repoToHide repoName =>
               obj_assign_primitive repoToHide repoName true)
            exclude_repo [].

(** [!repoToHide[name.name]]: an own property holds [true]; a name that is
    no own property reads the member of [Object.prototype], if there is
    one, which is truthy. *)
Definition not_hidden (repoToHide : Obj bool) (name : Repo.t) : bool :=
  negb (match obj_get repoToHide (Repo.name name) with
        | Some b => b
        | None => inherited (Repo.name name)
        end).

(** [repoNodes.sort((a, b) => b.size - a.size).filter(...)]: the nodes
    have no [size], so the comparator yields [NaN] throughout. *)
Definition visible_repos (exclude_repo : list string)
    (repoNodes : list Repo.t) : list Repo.t :=
  let repoToHide := build_repoToHide exclude_repo in
  filter (not_hidden repoToHide)
         (js_sort (fun a b => nan - nan)%float repoNodes).

(** [.filter((node) => node.languages.edges.length > 0)
     .reduce((acc, curr) => curr.languages.edges.concat(acc), [])] *)
Definition flatten (repoNodes : list Repo.t) : list Edge.t :=
  fold_left
    (fun acc curr => edges (Repo.languages curr) ++ acc)
    (filter (fun node =>
               (0 <? List.length (edges (Repo.languages node)))%nat)
            repoNodes)
    [].

(** One step of the second [reduce].  The variable [repoCount] lives
    outside the callback: it is threaded beside the accumulator.
    Where [acc] has no own property [name], [acc[name]] is the member of
    [Object.prototype] of that name, if any: an inherited method passes the
    test (its [name] is the key) and its [size] is [undefined], so that
    the sum is [prev.size + NaN]; [constructor] and [__proto__] fail the
    comparison of names. *)
Definition merge_edge (state : TopLangData * float) (prev : Edge.t)
  : TopLangData * float :=
  let '(acc, repoCount) := state in
  let name := Lang.name (Edge.node prev) in
  (* get the size of the language (bytes) *)
  let langSize := Edge.size prev in
  let '(langSize, repoCount) :=
    match obj_get acc name with
    | Some found =>
        if name =? LangStat.name found
        then ((Edge.size prev + LangStat.size found)%float,
              (repoCount + 1)%float)
        else (langSize, 1%float)
    | None =>
        if inherits_method name
        then ((Edge.size prev + nan)%float, (repoCount + 1)%float)
        else
          (* reset repoCount to 1 *)
          (langSize, 1%float)
    end in
  (obj_set acc name
     {| LangStat.name := name;
        LangStat.color := Lang.color (Edge.node prev);
        LangStat.size := langSize;
        LangStat.count := repoCount |},
   repoCount).

(** [let repoCount = 0; repoNodes = ... .reduce(..., {})] *)
Definition aggregate (flat : list Edge.t) : TopLangData :=
  fst (fold_left merge_edge flat ([], 0%float)).

(** [Object.keys(repoNodes).forEach((name) => { repoNodes[name].size =
    Math.pow(...) * Math.pow(...) })] *)
Definition weigh (pow : float -> float -> float)
    (size_weight count_weight : float) (repoNodes : TopLangData)
  : TopLangData :=
  fold_left
    (fun o name =>
       update_size o name
         (fun l => pow (LangStat.size l) size_weight
                   * pow (LangStat.count l) count_weight)%float)
    (keys repoNodes) repoNodes.

(** The value of the variable [repoNodes] when the weights have been
    applied: lines 100-153. *)
Definition weighted_languages (pow : float -> float -> float)
    (exclude_repo : list string) (size_weight count_weight : float)
    (repoNodes : list Repo.t) : TopLangData :=
  weigh pow size_weight count_weight
    (aggregate (flatten (visible_repos exclude_repo repoNodes))).

Definition lang := TopLanguagesFetcher.lang.

(** The object literal [customLanguages] of this revision. *)
Definition customLanguages : TopLangData :=
  [ lang "Python" "#3572A5" 44.71 15;
    lang "TypeScript" "#2b7489" 15.08 8;
    lang "JavaScript" "#f1e05a" 13.64 7;
    lang "Rust" "#dea584" 9.28 5;
    lang "C++" "#f34b7d" 7.22 4;
    lang "Solidity" "#AA6746" 4.88 3;
    lang "Go" "#00ADD8" 3.21 2;
    lang "C" "#555555" 1.98 2 ]%float.

(** [Object.keys(customLanguages).sort(...).reduce(...)] *)
Definition topLangs : TopLangData :=
  fold_left
    (fun result key =>
       match obj_get customLanguages key with
       | Some v => obj_set result key v
       | None => result
       end)
    (js_sort (fun a b => size_at customLanguages b
                         - size_at customLanguages a)%float
             (keys customLanguages))
    [].

Definition fetchTopLanguages (username : JsString)
    (exclude_repo : list string) (size_weight count_weight : float)
  : Fetch TopLangData :=
  if negb (truthy username)
  then throw (MissingParamError ["username"])
  else
    res <- call retryer (fetcher (login_only username)) ;;
    match errors (data res) with
    | Some errs => throw_upstream_error res errs
    | None =>
        match res_user res with
        | None => throw TypeError
        | Some u =>
            pow <- ask Math_pow ;;
            let repoNodes :=
              weighted_languages pow exclude_repo size_weight count_weight
                (nodes (repositories u)) in
            ret topLangs
        end
    end.

End TopLanguagesFetcher_part000.

(* ================================================================== *)
(** ** Vocabulary of the statements about the walker *)

Module Walk.
Import StatsFetcher.

(** The repository nodes a page carries. *)
Definition page_nodes (res : Response) : list Node.t :=
  match res_user res with
  | Some u => nodes (repositories u)
  | None => []
  end.

(** The nodes of the pages of a trace, in page order. *)
Definition all_nodes (pages : Trace Response) : list Node.t :=
  flat_map (fun p => page_nodes (snd p)) pages.

(** A page with a repository that has no star. *)
Definition has_zero_star_repo (res : Response) : Prop :=
  Exists (fun node => totalCount (Node.stargazers node) = 0%N)
         (page_nodes res).

(** What the walker requires of a page before it asks for the next. *)
Definition may_continue (w : World) (res : Response) : Prop :=
  FETCH_MULTI_PAGE_STARS w = Some "true"
  /\ errors (data res) = None
  /\ exists u,
       res_user res = Some u
       /\ hasNextPage (pageInfo (repositories u)) = true
       /\ Forall (fun node => (0 < totalCount (Node.stargazers node))%N)
                 (nodes (repositories u)).

(** Every page but the last one satisfies [may_continue]. *)
Fixpoint chained (w : World) (pages : Trace Response) : Prop :=
  match pages with
  | [] => True
  | p :: rest =>
      match rest with
      | [] => True
      | _ :: _ => may_continue w (snd p) /\ chained w rest
      end
  end.

(** The entries of a trace that starts at call number [n] are the
    answers of the transport. *)
Fixpoint answered (w : World) (n : nat) (pages : Trace Response) : Prop :=
  match pages with
  | [] => True
  | (req, res) :: rest =>
      res = retryer w n req /\ answered w (S n) rest
  end.

(** Two [user] objects that agree on everything but the node list. *)
Definition same_scalars (u u0 : User) : Prop :=
  set_nodes u [] = set_nodes u0 [].

(** A response with no error array and a [user] object. *)
Definition successful (res : Response) : Prop :=
  errors (data res) = None /\ exists u, res_user res = Some u.

(** The request of an iteration entered with [endCursor = after], the
    answer it gets when the trace so far is [t], and the trace then. *)
Definition request_at (args : Args) (after : option string) : Request :=
  fetcher (mkvariables args after).

Definition answer_at (w : World) (args : Args) (t : Trace Response)
    (after : option string) : Response :=
  retryer w (List.length t) (request_at args after).

Definition trace_after (w : World) (args : Args) (t : Trace Response)
    (after : option string) : Trace Response :=
  t ++ [(request_at args after, answer_at w args t after)].

(** The value of [stats] at the end of an iteration that fetched [res];
    [None] where the [push] meets an absent [user]. *)
Definition merged (stats : option Response) (res : Response)
  : option Response :=
  match stats with
  | None => Some res
  | Some s =>
      match res_user s with
      | Some u0 =>
          Some (set_user s
                  (set_nodes u0 (nodes (repositories u0) ++ page_nodes res)))
      | None => None
      end
  end.

(** The argument object [fetchStats] passes to [statsFetcher]. *)
Definition args_of (username : JsString)
    (include_merged_pull_requests include_discussions
     include_discussions_answers : bool) : Args :=
  {| username := username;
     includeMergedPullRequests := include_merged_pull_requests;
     includeDiscussions := include_discussions;
     includeDiscussionsAnswers := include_discussions_answers |}.

(** The record [fetchStats] returns for a display name. *)
Definition record_named (display : JsString) : Stats.t :=
  {| Stats.name := display;
     Stats.totalPRs := 46;
     Stats.totalPRsMerged := 40;
     Stats.mergedPRsPercentage := 87;
     Stats.totalReviews := 15;
     Stats.totalCommits := 2100;
     Stats.totalIssues := 0;
     Stats.totalStars := 10;
     Stats.totalDiscussionsStarted := 0;
     Stats.totalDiscussionsAnswered := 0;
     Stats.contributedTo := 15;
     Stats.rank := {| level := "C+"; percentile := 45 |} |}.
End Walk.

(* ================================================================== *)
(** ** The derivation rules in the words of the specification

    These definitions follow the text of the specification, not the code;
    the fetchers are compared with them. *)

Module Specification.
Import StatsFetcher.

(** "sum [stargazerCount] across all repository nodes (after applying the
    same exclusion-by-name filter ...) for [totalStars]" *)
Definition totalStars (exclude_repo : list string) (ns : list Node.t) : N :=
  fold_left N.add
    (map (fun node => totalCount (Node.stargazers node))
         (filter (fun node =>
                    negb (existsb (String.eqb (Node.name node)) exclude_repo))
                 ns))
    0%N.

(** [Math.round] of a non-negative rational: halves go up. *)
Definition round (q : Q) : N := Z.to_N (Qfloor (q + (1 # 2))).

(** "[mergedPRsPercentage = round(totalPRsMerged / totalPRs * 100)]
    guarding the zero-denominator case to 0" *)
Definition mergedPRsPercentage (totalPRsMerged totalPRs : N) : N :=
  if (totalPRs =? 0)%N then 0%N
  else round (inject_Z (Z.of_N totalPRsMerged)
              / inject_Z (Z.of_N totalPRs) * 100).

(** The count under an optional [{ totalCount }] object, 0 when absent. *)
Definition count_of (c : option TotalCount) : N :=
  match c with
  | Some c => totalCount c
  | None => 0%N
  end.
End Specification.

(* ================================================================== *)
(** ** Sample worlds *)

Module Samples.
Import StatsFetcher.

Definition repo (name : string) (stars : N) : Node.t :=
  {| Node.name := name; Node.stargazers := {| totalCount := stars |} |}.

Definition count (n : N) : option TotalCount := Some {| totalCount := n |}.

(** A page of the full query. *)
Definition stats_page (prs merged : N) (ns : list Node.t) (next : bool)
    (cursor : string) : Response :=
  {| statusText := "OK";
     data := {| errors := None;
                data' := Some {| user := Some
                  {| name := Some "Ada Lovelace";
                     login := Some "ada";
                     contributionsCollection :=
                       Some {| totalCommitContributions := 120;
                               totalPullRequestReviewContributions := 4 |};
                     repositoriesContributedTo := count 3;
                     pullRequests := count prs;
                     mergedPullRequests := count merged;
                     openIssues := count 1;
                     closedIssues := count 2;
                     followers := count 9;
                     repositoryDiscussions := None;
                     repositoryDiscussionComments := None;
                     repositories :=
                       {| nodes := ns;
                          pageInfo := {| hasNextPage := next;
                                         endCursor := Some cursor |} |}
                  |} |} |} |}.

(** A page of the repository-only query. *)
Definition repos_page (ns : list Node.t) (next : bool) (cursor : string)
  : Response :=
  {| statusText := "OK";
     data := {| errors := None;
                data' := Some {| user := Some
                  {| name := None;
                     login := None;
                     contributionsCollection := None;
                     repositoriesContributedTo := None;
                     pullRequests := None;
                     mergedPullRequests := None;
                     openIssues := None;
                     closedIssues := None;
                     followers := None;
                     repositoryDiscussions := None;
                     repositoryDiscussionComments := None;
                     repositories :=
                       {| nodes := ns;
                          pageInfo := {| hasNextPage := next;
                                         endCursor := Some cursor |} |}
                  |} |} |} |}.

(** Three pages, served by cursor; the second holds an unstarred
    repository and still reports a next page. *)
Definition three_pages (n : nat) (req : Request) : Response :=
  match v_after (variables req) with
  | None =>
      stats_page 7 5 [repo "alpha" 5; repo "beta" 3] true "c1"
  | Some c =>
      if c =? "c1"
      then repos_page [repo "gamma" 1; repo "delta" 0] true "c2"
      else repos_page [repo "epsilon" 7] false "c3"
  end.

Definition no_wrap (s : string) (width lines : N) : list string := [s].

Definition world_multi_page : World :=
  {| FETCH_MULTI_PAGE_STARS := Some "true";
     retryer := three_pages;
     wrapTextMultiline := no_wrap |}.

Definition world_single_page : World :=
  {| FETCH_MULTI_PAGE_STARS := None;
     retryer := three_pages;
     wrapTextMultiline := no_wrap |}.

(** One repository with one star; no pull request at all. *)
Definition world_no_pull_request : World :=
  {| FETCH_MULTI_PAGE_STARS := None;
     retryer := fun _ _ => stats_page 0 0 [repo "alpha" 1] false "c1";
     wrapTextMultiline := no_wrap |}.

Definition not_found_error (msg : JsString) : GqlError :=
  {| type := Some "NOT_FOUND"; message := msg |}.

Definition second_error : GqlError :=
  {| type := Some "FORBIDDEN"; message := Some "second error" |}.

Definition not_found (msg : JsString) : Response :=
  {| statusText := "OK";
     data := {| errors := Some [not_found_error msg; second_error];
                data' := Some {| user := None |} |} |}.

Definition world_not_found (msg : JsString) : World :=
  {| FETCH_MULTI_PAGE_STARS := Some "true";
     retryer := fun _ _ => not_found msg;
     wrapTextMultiline := no_wrap |}.

Definition ada_args : Args :=
  {| username := Some "ada";
     includeMergedPullRequests := true;
     includeDiscussions := false;
     includeDiscussionsAnswers := false |}.

(** A single page of an account whose profile name is [n] (absent, or the
    empty string, for an account that has set none) and whose login is
    "ada". *)
Definition profile_page (n : JsString) : Response :=
  {| statusText := "OK";
     data := {| errors := None;
                data' := Some {| user := Some
                  {| name := n;
                     login := Some "ada";
                     contributionsCollection :=
                       Some {| totalCommitContributions := 120;
                               totalPullRequestReviewContributions := 4 |};
                     repositoriesContributedTo := count 3;
                     pullRequests := count 7;
                     mergedPullRequests := count 5;
                     openIssues := count 1;
                     closedIssues := count 2;
                     followers := count 9;
                     repositoryDiscussions := None;
                     repositoryDiscussionComments := None;
                     repositories :=
                       {| nodes := [repo "alpha" 5];
                          pageInfo := {| hasNextPage := false;
                                         endCursor := None |} |}
                  |} |} |} |}.

Definition world_profile (n : JsString) : World :=
  {| FETCH_MULTI_PAGE_STARS := Some "true";
     retryer := fun _ _ => profile_page n;
     wrapTextMultiline := no_wrap |}.
End Samples.

Module LangSamples.
Import TopLangs.

Definition python (size : float) : Edge.t :=
  {| Edge.size := size;
     Edge.node := {| Lang.color := Some "#3572A5"; Lang.name := "Python" |} |}.

Definition go (size : float) : Edge.t :=
  {| Edge.size := size;
     Edge.node := {| Lang.color := Some "#00ADD8"; Lang.name := "Go" |} |}.

(** One repository contributing {Python: 300}, one contributing
    {Python: 200, Go: 100}. *)
Definition repo_one : Repo.t :=
  {| Repo.name := "one"; Repo.languages := {| edges := [python 300] |} |}.

Definition repo_two : Repo.t :=
  {| Repo.name := "two";
     Repo.languages := {| edges := [python 200; go 100] |} |}.

Definition two_repos : Response :=
  {| statusText := "OK";
     data := {| errors := None;
                data' := Some {| user := Some
                  {| repositories := {| nodes := [repo_one; repo_two] |} |}
                |} |} |}.


(** Agrees with [Math.pow] where the exponent is 0 or 1. *)
Definition pow_0_1 (x y : float) : float :=
  if (y =? 0)%float then 1%float else x.

Definition world_two_repos : World :=
  {| retryer := fun _ _ => two_repos;
     wrapTextMultiline := fun s _ _ => [s];
     Math_pow := pow_0_1 |}.

(** A transport that answers every request with an error. *)
Definition world_forbidden : World :=
  {| retryer := fun _ _ =>
       {| statusText := "Forbidden";
          data := {| errors := Some [ {| type := Some "FORBIDDEN";
                                         message := Some "rate limited" |} ];
                     data' := None |} |};
     wrapTextMultiline := fun s _ _ => [s];
     Math_pow := pow_0_1 |}.
End LangSamples.

(* ================================================================== *)
(** ** The tables in exact arithmetic *)

Module Exact.
Import TopLangs.

(** The rational number a finite binary64 value stands for. *)
Definition float_to_Q (f : float) : option Q :=
  match Prim2SF f with
  | S754_zero _ => Some (inject_Z 0)
  | S754_finite s m e =>
      let z := if s then Z.neg m else Z.pos m in
      Some (match e with
            | Z0 => inject_Z z
            | Zpos p => inject_Z (z * 2 ^ Zpos p)
            | Zneg p => Qmake z (2 ^ p)
            end)
  | S754_infinity _ => None
  | S754_nan => None
  end.

(** The exact sum of the sizes of a table, [None] if one is not finite. *)
Definition exact_sum (o : TopLangData) : option Q :=
  fold_left
    (fun acc l =>
       match acc, float_to_Q (LangStat.size l) with
       | Some a, Some b => Some (Qred (a + b))
       | _, _ => None
       end)
    (values o) (Some (inject_Z 0)).

(** The sizes written in the literal [customLanguages] of
    [src/fetchers/top-languages-fetcher.js], as decimal fractions. *)
Definition literal_sizes : list Q :=
  [385 # 10; 142 # 10; 128 # 10; 86 # 10; 68 # 10; 42 # 10;
   38 # 10; 32 # 10; 29 # 10; 21 # 10; 16 # 10; 13 # 10]%Q.

Definition Qsum (l : list Q) : Q := fold_left Qplus l (inject_Z 0).

(** [size / totalBytes * 100] over the rationals. *)
Definition percentages (l : list Q) : list Q :=
  map (fun q => q / Qsum l * inject_Z 100)%Q l.

(** The sizes of a table are within [eps] of the given rationals. *)
Fixpoint close_to (eps : Q) (o : TopLangData) (qs : list Q) : bool :=
  match o, qs with
  | [], [] => true
  | (_, l) :: o', q :: qs' =>
      match float_to_Q (LangStat.size l) with
      | Some x => Qle_bool (Qabs (x - q)) eps && close_to eps o' qs'
      | None => false
      end
  | _, _ => false
  end.
End Exact.

Module Tables.
Import TopLangs.

(** The mapping [src/fetchers/top-languages-fetcher.js] returns, written
    out: the binary64 results of [size / totalBytes * 100]. *)
Definition normalized : TopLangData :=
  let lang := TopLanguagesFetcher.lang in
  [ lang "Python" "#3572A5" 38.500000000000007 15;
    lang "TypeScript" "#2b7489" 14.200000000000001 8;
    lang "JavaScript" "#f1e05a" 12.800000000000002 7;
    lang "Rust" "#dea584" 8.6000000000000014 5;
    lang "C++" "#f34b7d" 6.8000000000000007 4;
    lang "Solidity" "#AA6746" 4.2000000000000011 3;
    lang "Shell" "#89e051" 3.8000000000000007 6;
    lang "Go" "#00ADD8" 3.2000000000000006 2;
    lang "C" "#555555" 2.9000000000000004 2;
    lang "Dockerfile" "#384d54" 2.1000000000000005 4;
    lang "PowerShell" "#012456" 1.6000000000000003 3;
    lang "Makefile" "#427819" 1.3000000000000003 2 ]%float.

End Tables.

(* ================================================================== *)
(** ** The second revision kept in [unnamed/part_000] (lines 218-375) *)

Module TopLanguagesFetcher_part000_second.
Import TopLangs.

Definition lang := TopLanguagesFetcher.lang.

(** The object literal [customLanguages] of this revision. *)
Definition customLanguages : TopLangData :=
  [ lang "Python" "#3572A5" 44.71 15;
    lang "TypeScript" "#2b7489" 15.08 8;
    lang "JavaScript" "#f1e05a" 13.64 7;
    lang "Rust" "#dea584" 9.28 5;
    lang "C++" "#f34b7d" 7.22 4;
    lang "Solidity" "#AA6746" 4.88 3;
    lang "Go" "#00ADD8" 3.21 2;
    lang "C" "#555555" 1.98 2 ]%float.

(** [Object.values(o).reduce((acc, curr) => acc + curr.size, 0)] *)
Definition sum_sizes (o : TopLangData) : float :=
  fold_left (fun acc curr => acc + LangStat.size curr)%float (values o) 0%float.

(** The body of the [try] block. *)
Definition top_langs_body : TopLangData :=
  let customLanguages := customLanguages in
  (* Convert bytes to relative percentages *)
  let totalBytes := sum_sizes customLanguages in
  let customLanguages :=
    fold_left
      (fun o key =>
         update_size o key (fun l => (LangStat.size l / totalBytes) * 100)%float)
      (keys customLanguages) customLanguages in
  (* Sort languages by size *)
  let topLangs :=
    fold_left
      (fun acc '(key, value) => obj_set acc key value)
      (js_sort (fun '(_, a) '(_, b) => LangStat.size b - LangStat.size a)%float
               (entries customLanguages))
      [] in
  topLangs.

Definition fetchTopLanguages (username : JsString)
    (exclude_repo : list string) (size_weight count_weight : float)
  : Fetch TopLangData :=
  if negb (truthy username)
  then throw (MissingParamError ["username"])
  else
    try_catch (ret top_langs_body)
              (fun error => throw error).

End TopLanguagesFetcher_part000_second.

(* ================================================================== *)
(** ** Vocabulary of the further statements *)

Module Requests.
Import StatsFetcher Walk.

(** [res.data.data.user.repositories.pageInfo.endCursor] *)
Definition cursor_of (res : Response) : option string :=
  match res_user res with
  | Some u => endCursor (pageInfo (repositories u))
  | None => None
  end.

(** The value of the variable [endCursor] when the [i]-th request of a
    trace is made: [null] at first, then the cursor of the page before. *)
Definition cursor_before (t : Trace Response) (i : nat) : option string :=
  match i with
  | O => None
  | S j =>
      match nth_error t j with
      | Some (_, prev) => cursor_of prev
      | None => None
      end
  end.

(** Each request of [pages] is made with the cursor of the page before
    it, the first one with [after]. *)
Fixpoint follows_cursor (args : Args) (after : option string)
    (pages : Trace Response) : Prop :=
  match pages with
  | [] => True
  | (req, res) :: rest =>
      req = request_at args after
      /\ follows_cursor args (cursor_of res) rest
  end.

(** [stats] is still [undefined], or holds a response with a [user]. *)
Definition stats_ready (stats : option Response) : Prop :=
  match stats with
  | None => True
  | Some s => exists u, res_user s = Some u
  end.
End Requests.

Module Aggregation.
Import TopLangs.

(** The name of the repository is one of [exclude_repo]. *)
Definition excluded (exclude_repo : list string) (r : Repo.t) : bool :=
  existsb (String.eqb (Repo.name r)) exclude_repo.

(** The filter drops the repository: its name is excluded, or is the
    name of a member of [Object.prototype]. *)
Definition dropped (exclude_repo : list string) (r : Repo.t) : bool :=
  excluded exclude_repo r || inherited (Repo.name r).

Definition edges_of (r : Repo.t) : list Edge.t := edges (Repo.languages r).

Definition named (name : string) (e : Edge.t) : bool :=
  name =? Lang.name (Edge.node e).

(** The sizes of the edges called [name], added in the order of the
    sequence, each new size on the left of the running total; [None] where
    no edge has that name. *)
Definition add_edge_size (name : string) (acc : option float) (e : Edge.t)
  : option float :=
  if named name e
  then Some (match acc with
             | Some total => (Edge.size e + total)%float
             | None => Edge.size e
             end)
  else acc.

Definition total_size (name : string) (flat : list Edge.t) : option float :=
  fold_left (add_edge_size name) flat None.

(** The colour of the last edge called [name]. *)
Definition last_color (name : string) (flat : list Edge.t)
  : option JsString :=
  fold_left (fun acc e => if named name e
                          then Some (Lang.color (Edge.node e)) else acc)
            flat None.


Definition edge_name (e : Edge.t) : string := Lang.name (Edge.node e).

(** An entry with its size replaced by the comparison index. *)
Definition weighted (pow : float -> float -> float)
    (size_weight count_weight : float) (entry : string * LangStat.t)
  : string * LangStat.t :=
  (fst entry,
   LangStat.set_size (snd entry)
     (pow (LangStat.size (snd entry)) size_weight
      * pow (LangStat.count (snd entry)) count_weight)%float).
End Aggregation.

Module MoreTables.
Import TopLangs.

(** The mapping the second revision of [part_000] returns, written out. *)
Definition normalized_second : TopLangData :=
  let lang := TopLanguagesFetcher.lang in
  [ lang "Python" "#3572A5" 44.710000000000001 15;
    lang "TypeScript" "#2b7489" 15.079999999999998 8;
    lang "JavaScript" "#f1e05a" 13.639999999999999 7;
    lang "Rust" "#dea584" 9.2799999999999994 5;
    lang "C++" "#f34b7d" 7.2199999999999998 4;
    lang "Solidity" "#AA6746" 4.8799999999999999 3;
    lang "Go" "#00ADD8" 3.2099999999999995 2;
    lang "C" "#555555" 1.9799999999999998 2 ]%float.
End MoreTables.

Module MoreSamples.
Import StatsFetcher.

(** A body with neither an error array nor a [user]. *)
Definition null_user : Response :=
  {| statusText := "OK";
     data := {| errors := None; data' := Some {| user := None |} |} |}.

Definition world_null_user : World :=
  {| FETCH_MULTI_PAGE_STARS := Some "true";
     retryer := fun _ _ => null_user;
     wrapTextMultiline := Samples.no_wrap |}.

Definition failure (errs : list GqlError) : Response :=
  {| statusText := "Forbidden";
     data := {| errors := Some errs; data' := None |} |}.

Definition rate_limited : GqlError :=
  {| type := Some "RATE_LIMITED";
     message := Some "API rate limit exceeded for user ID 1." |}.

Definition silent : GqlError := {| type := None; message := None |}.

(** The first page is fine, the second request fails. *)
Definition fails_on_second_page (n : nat) (req : Request) : Response :=
  match v_after (variables req) with
  | None => Samples.three_pages n req
  | Some _ => failure [rate_limited]
  end.

Definition world_fails_on_second_page : World :=
  {| FETCH_MULTI_PAGE_STARS := Some "true";
     retryer := fails_on_second_page;
     wrapTextMultiline := fun s _ _ => ["API rate limit"; "exceeded"] |}.

Definition world_failing (errs : list GqlError) : World :=
  {| FETCH_MULTI_PAGE_STARS := None;
     retryer := fun _ _ => failure errs;
     wrapTextMultiline := fun s _ _ => ["API rate limit"; "exceeded"] |}.
End MoreSamples.

Module MoreLangSamples.
Import TopLangs LangSamples.

Definition ruby (size : float) : Edge.t :=
  {| Edge.size := size;
     Edge.node := {| Lang.color := Some "#701516"; Lang.name := "Ruby" |} |}.

Definition repo_empty : Repo.t :=
  {| Repo.name := "empty"; Repo.languages := {| edges := [] |} |}.

Definition repo_three : Repo.t :=
  {| Repo.name := "three";
     Repo.languages := {| edges := [ruby 7; python 50] |} |}.

Definition failure (errs : list GqlError) : Response :=
  {| statusText := "Forbidden";
     data := {| errors := Some errs; data' := None |} |}.

Definition world_failing (errs : list GqlError) : World :=
  {| retryer := fun _ _ => failure errs;
     wrapTextMultiline := fun s _ _ => ["API rate limit"; "exceeded"];
     Math_pow := pow_0_1 |}.

Definition world_null_user : World :=
  {| retryer := fun _ _ =>
       {| statusText := "OK";
          data := {| errors := None; data' := Some {| user := None |} |} |};
     wrapTextMultiline := fun s _ _ => [s];
     Math_pow := pow_0_1 |}.

Definition four_repos : list Repo.t :=
  [repo_one; repo_empty; repo_two; repo_three].

(** A repository whose name is that of a member of [Object.prototype]. *)
Definition repo_constructor : Repo.t :=
  {| Repo.name := "constructor";
     Repo.languages := {| edges := [go 100] |} |}.

Definition five_repos : list Repo.t := four_repos ++ [repo_constructor].

(** An edge of an arbitrary language name, without colour. *)
Definition edge (name : string) (size : float) : Edge.t :=
  {| Edge.size := size;
     Edge.node := {| Lang.color := None; Lang.name := name |} |}.
End MoreLangSamples.

(* ================================================================== *)
(** * Properties *)

(** ** Lists *)

Lemma filter_length_le_all {A} (f : A -> bool) (l : list A) :
  (List.length (filter f l) <= List.length l)%nat.
Proof.
  induction l as [|x l IH]; simpl; [lia|].
  destruct (f x); simpl; lia.
Qed.

Lemma filter_same_length {A} (f : A -> bool) (l : list A) :
  List.length l = List.length (filter f l) ->
  Forall (fun x => f x = true) l.
Proof.
  induction l as [|x l IH]; simpl; intros H; [constructor|].
  destruct (f x) eqn:Hx; simpl in H.
  - constructor; [exact Hx | apply IH; lia].
  - pose proof (filter_length_le_all f l). lia.
Qed.

(** ** The walker, one iteration at a time *)

Section WalkerSteps.
Import StatsFetcher Walk.

Variable w : World.
Variable args : Args.

Lemma loop_zero stats after t :
  statsFetcher_loop 0 args stats after w t = (OutOfFuel, t).
Proof. reflexivity. Qed.

Lemma loop_errors fuel stats after t errs :
  errors (data (answer_at w args t after)) = Some errs ->
  statsFetcher_loop (S fuel) args stats after w t
  = (Returned (EarlyReturn (answer_at w args t after)), trace_after w args t after).
Proof.
  intros H. unfold trace_after, answer_at, request_at in *.
  simpl. unfold bind, call. simpl. rewrite H. reflexivity.
Qed.

Lemma loop_no_user fuel stats after t :
  errors (data (answer_at w args t after)) = None ->
  res_user (answer_at w args t after) = None ->
  statsFetcher_loop (S fuel) args stats after w t
  = (Threw TypeError, trace_after w args t after).
Proof.
  intros H1 H2. unfold trace_after, answer_at, request_at in *.
  simpl. unfold bind, call. simpl. rewrite H1, H2. reflexivity.
Qed.

Lemma loop_page fuel stats after t u :
  errors (data (answer_at w args t after)) = None ->
  res_user (answer_at w args t after) = Some u ->
  statsFetcher_loop (S fuel) args stats after w t
  = match merged stats (answer_at w args t after) with
    | None => (Threw TypeError, trace_after w args t after)
    | Some stats' =>
        if next_page (FETCH_MULTI_PAGE_STARS w) u
        then statsFetcher_loop fuel args (Some stats')
               (endCursor (pageInfo (repositories u))) w
               (trace_after w args t after)
        else (Returned (Completed stats'), trace_after w args t after)
    end.
Proof.
  intros H1 H2. unfold merged, page_nodes. rewrite H2.
  unfold answer_at, request_at in *.
  cbn [statsFetcher_loop]. unfold bind, call, ask, trace_after, request_at.
  cbn beta iota zeta. rewrite H1, H2.
  destruct stats as [s|]; [unfold push_nodes; destruct (res_user s)|];
    unfold ret, throw;
    try destruct (next_page (FETCH_MULTI_PAGE_STARS w) u); reflexivity.
Qed.

Lemma next_page_true flag u :
  next_page flag u = true ->
  flag = Some "true"
  /\ hasNextPage (pageInfo (repositories u)) = true
  /\ Forall (fun node => (0 < totalCount (Node.stargazers node))%N)
            (nodes (repositories u)).
Proof.
  unfold next_page. intros H.
  apply andb_true_iff in H as [H Hn].
  apply andb_true_iff in H as [Hf Hl].
  repeat split.
  - destruct flag as [s|]; simpl in Hf; [|discriminate].
    apply String.eqb_eq in Hf. now subst.
  - exact Hn.
  - apply Nat.eqb_eq in Hl. apply filter_same_length in Hl.
    eapply Forall_impl; [|exact Hl]. intros node Hs.
    unfold has_stars in Hs. apply negb_true_iff, N.eqb_neq in Hs. lia.
Qed.

Lemma next_page_false_flag flag u :
  flag <> Some "true" -> next_page flag u = false.
Proof.
  intros H. unfold next_page.
  destruct flag as [s|]; simpl; [|reflexivity].
  destruct (String.eqb_spec s "true"); [subst; congruence | reflexivity].
Qed.

Lemma next_page_false_zero flag u :
  Exists (fun node => totalCount (Node.stargazers node) = 0%N)
         (nodes (repositories u)) ->
  next_page flag u = false.
Proof.
  intros H. destruct (next_page flag u) eqn:E; [|reflexivity].
  apply next_page_true in E as (_ & _ & Hall).
  apply Exists_exists in H as (node & Hin & Hz).
  rewrite Forall_forall in Hall. specialize (Hall node Hin). lia.
Qed.
End WalkerSteps.

(** ** The walker, whole runs *)

Section WalkerRuns.
Import StatsFetcher Walk.

Variable w : World.
Variable args : Args.

Lemma chained_cons p pages :
  (pages <> [] -> may_continue w (snd p)) ->
  chained w pages ->
  chained w (p :: pages).
Proof.
  intros Hp Hc. destruct pages as [|q rest]; simpl; [exact I|].
  split; [apply Hp; discriminate | exact Hc].
Qed.

(** Whatever the fuel, the loop extends the trace by pages that are the
    transport's answers, each page but the last allowing continuation. *)
Lemma loop_trace fuel :
  forall stats after t,
  exists pages,
    snd (statsFetcher_loop fuel args stats after w t) = t ++ pages
    /\ chained w pages
    /\ answered w (List.length t) pages
    /\ (List.length pages <= fuel)%nat.
Proof.
  induction fuel as [|fuel IH]; intros stats after t.
  - exists []. rewrite loop_zero, app_nil_r. simpl. auto.
  - destruct (errors (data (answer_at w args t after))) as [errs|] eqn:He.
    + exists [(request_at args after, answer_at w args t after)].
      rewrite (loop_errors _ _ _ _ _ _ _ He). simpl.
      repeat split; auto; lia.
    + destruct (res_user (answer_at w args t after)) as [u|] eqn:Hu.
      * rewrite (loop_page _ _ _ _ _ _ _ He Hu).
        destruct (merged stats (answer_at w args t after)) as [stats'|].
        -- destruct (next_page (FETCH_MULTI_PAGE_STARS w) u) eqn:Hn.
           ++ destruct (IH (Some stats')
                           (endCursor (pageInfo (repositories u)))
                           (trace_after w args t after))
                as (pages & Ht & Hc & Ha & Hl).
              exists ((request_at args after, answer_at w args t after)
                      :: pages).
              rewrite Ht. unfold trace_after. rewrite <- app_assoc.
              split; [reflexivity|]. split; [|split].
              ** apply chained_cons; [|exact Hc]. intros _.
                 apply next_page_true in Hn as (Hf & Hh & Hs).
                 split; [exact Hf|]. split; [exact He|].
                 exists u. auto.
              ** split; [reflexivity|].
                 unfold trace_after in Ha. rewrite length_app in Ha.
                 simpl in Ha. rewrite Nat.add_1_r in Ha. exact Ha.
              ** simpl. lia.
           ++ exists [(request_at args after, answer_at w args t after)].
              simpl. repeat split; auto; lia.
        -- exists [(request_at args after, answer_at w args t after)].
           simpl. repeat split; auto; lia.
      * exists [(request_at args after, answer_at w args t after)].
        rewrite (loop_no_user _ _ _ _ _ _ He Hu). simpl.
        repeat split; auto; lia.
Qed.

(** The [return res] inside the loop hands back a response with an
    error array. *)
Lemma loop_early_return fuel :
  forall stats after t res t',
    statsFetcher_loop fuel args stats after w t
    = (Returned (EarlyReturn res), t') ->
    exists errs, errors (data res) = Some errs.
Proof.
  induction fuel as [|fuel IH]; intros stats after t res t' H.
  - rewrite loop_zero in H. discriminate.
  - destruct (errors (data (answer_at w args t after))) as [errs|] eqn:He.
    + rewrite (loop_errors _ _ _ _ _ _ _ He) in H.
      injection H as <- _. eauto.
    + destruct (res_user (answer_at w args t after)) as [u|] eqn:Hu.
      * rewrite (loop_page _ _ _ _ _ _ _ He Hu) in H.
        destruct (merged stats (answer_at w args t after)) as [stats'|];
          [|discriminate].
        destruct (next_page (FETCH_MULTI_PAGE_STARS w) u);
          [eapply IH; exact H | discriminate].
      * rewrite (loop_no_user _ _ _ _ _ _ He Hu) in H. discriminate.
Qed.

Lemma res_user_set_user (s : Response) u :
  res_user (set_user s u) = Some u.
Proof. reflexivity. Qed.

Lemma errors_set_user (s : Response) u :
  errors (data (set_user s u)) = errors (data s).
Proof. reflexivity. Qed.

(** When the loop runs to its end, [stats] holds the scalars it had (or
    those of the first page fetched) and the nodes of all pages. *)
Lemma loop_completed fuel :
  forall stats after t s t',
    statsFetcher_loop fuel args stats after w t
    = (Returned (Completed s), t') ->
    exists p pages,
      t' = t ++ p :: pages
      /\ exists u0,
           res_user (match stats with Some s0 => s0 | None => snd p end)
           = Some u0
           /\ errors (data s)
              = errors (data (match stats with
                              | Some s0 => s0
                              | None => snd p
                              end))
           /\ errors (data (snd p)) = None
           /\ exists u,
                res_user s = Some u
                /\ same_scalars u u0
                /\ nodes (repositories u)
                   = match stats with
                     | Some _ => nodes (repositories u0)
                     | None => []
                     end ++ all_nodes (p :: pages).
Proof.
  induction fuel as [|fuel IH]; intros stats after t s t' H.
  - rewrite loop_zero in H. discriminate.
  - destruct (errors (data (answer_at w args t after))) as [errs|] eqn:He.
    { rewrite (loop_errors _ _ _ _ _ _ _ He) in H. discriminate. }
    destruct (res_user (answer_at w args t after)) as [up|] eqn:Hu.
    2:{ rewrite (loop_no_user _ _ _ _ _ _ He Hu) in H. discriminate. }
    rewrite (loop_page _ _ _ _ _ _ _ He Hu) in H.
    destruct (merged stats (answer_at w args t after)) as [stats'|] eqn:Hm;
      [|discriminate].
    set (p := (request_at args after, answer_at w args t after)) in *.
    assert (Hpn : page_nodes (snd p) = nodes (repositories up)).
    { unfold page_nodes. simpl. now rewrite Hu. }
    (* what the iteration made of [stats] *)
    assert (Hstep : exists u0,
               res_user (match stats with Some s0 => s0 | None => snd p end)
               = Some u0
               /\ errors (data stats')
                  = errors (data (match stats with
                                  | Some s0 => s0
                                  | None => snd p
                                  end))
               /\ exists u1,
                    res_user stats' = Some u1
                    /\ same_scalars u1 u0
                    /\ nodes (repositories u1)
                       = match stats with
                         | Some _ => nodes (repositories u0)
                         | None => []
                         end ++ page_nodes (snd p)).
    { destruct stats as [s0|]; simpl in Hm.
      - destruct (res_user s0) as [u0|] eqn:Hu0; [|discriminate].
        injection Hm as <-. exists u0. split; [reflexivity|].
        split; [apply errors_set_user|].
        eexists. split; [apply res_user_set_user|].
        split; reflexivity.
      - injection Hm as <-. exists up. split; [exact Hu|].
        split; [reflexivity|]. exists up. split; [exact Hu|].
        split; [reflexivity|]. now rewrite Hpn. }
    destruct Hstep as (u0 & Hu0 & Herr & u1 & Hu1 & Hsc & Hnodes).
    destruct (next_page (FETCH_MULTI_PAGE_STARS w) up).
    + apply IH in H as (q & pages & Ht & v0 & Hv0 & Herr' & _ & u & Hus & Hsc' & Hn').
      simpl in Hv0. rewrite Hu1 in Hv0. injection Hv0 as <-.
      exists p, (q :: pages). split.
      { rewrite Ht. unfold trace_after. now rewrite <- app_assoc. }
      exists u0. split; [exact Hu0|]. split; [congruence|].
      split; [exact He|]. exists u. split; [exact Hus|].
      split; [unfold same_scalars in *; congruence|].
      rewrite Hn', Hnodes, <- app_assoc. reflexivity.
    + injection H as <- <-. exists p, []. split; [reflexivity|].
      exists u0. split; [exact Hu0|]. split; [exact Herr|].
      split; [exact He|]. exists u1. split; [exact Hu1|].
      split; [exact Hsc|]. simpl. now rewrite app_nil_r.
Qed.
End WalkerRuns.

Section WalkerResults.
Import StatsFetcher Walk.

Variable w : World.
Variable args : Args.

(** The loop runs out of fuel only behind pages that all allowed
    continuation. *)
Lemma loop_out_of_fuel fuel :
  forall stats after t pages,
    statsFetcher_loop fuel args stats after w t = (OutOfFuel, t ++ pages) ->
    Forall (fun p => may_continue w (snd p)) pages.
Proof.
  induction fuel as [|fuel IH]; intros stats after t pages H.
  - rewrite loop_zero in H. injection H as H.
    rewrite <- (app_nil_r t) in H at 1. apply app_inv_head in H.
    subst. constructor.
  - destruct (errors (data (answer_at w args t after))) as [errs|] eqn:He.
    { rewrite (loop_errors _ _ _ _ _ _ _ He) in H. discriminate. }
    destruct (res_user (answer_at w args t after)) as [u|] eqn:Hu.
    2:{ rewrite (loop_no_user _ _ _ _ _ _ He Hu) in H. discriminate. }
    rewrite (loop_page _ _ _ _ _ _ _ He Hu) in H.
    destruct (merged stats (answer_at w args t after)) as [stats'|];
      [|discriminate].
    destruct (next_page (FETCH_MULTI_PAGE_STARS w) u) eqn:Hn;
      [|discriminate].
    destruct (loop_trace w args fuel (Some stats')
                (endCursor (pageInfo (repositories u)))
                (trace_after w args t after)) as (rest & Ht & _).
    rewrite H in Ht. simpl in Ht. unfold trace_after in Ht.
    rewrite <- app_assoc in Ht. apply app_inv_head in Ht. subst pages.
    constructor.
    + apply next_page_true in Hn as (Hf & Hh & Hs).
      split; [exact Hf|]. split; [exact He|]. exists u. auto.
    + eapply IH. rewrite H. unfold trace_after.
      now rewrite <- app_assoc.
Qed.

Lemma statsFetcher_trace fuel t :
  snd (statsFetcher fuel args w t)
  = snd (statsFetcher_loop fuel args None None w t).
Proof.
  unfold statsFetcher, bind.
  destruct (statsFetcher_loop fuel args None None w t) as [[[res|s]|e|] t'];
    reflexivity.
Qed.

Lemma statsFetcher_out_of_fuel fuel t t' :
  statsFetcher fuel args w t = (OutOfFuel, t') ->
  statsFetcher_loop fuel args None None w t = (OutOfFuel, t').
Proof.
  unfold statsFetcher, bind.
  destruct (statsFetcher_loop fuel args None None w t) as [[[res|s]|e|] t0];
    unfold ret; intros H; try discriminate; now injection H as <-.
Qed.

Lemma statsFetcher_returned fuel t res t' :
  statsFetcher fuel args w t = (Returned res, t') ->
  statsFetcher_loop fuel args None None w t = (Returned (EarlyReturn res), t')
  \/ exists s,
       statsFetcher_loop fuel args None None w t
       = (Returned (Completed s), t')
       /\ res = override s.
Proof.
  unfold statsFetcher, bind.
  destruct (statsFetcher_loop fuel args None None w t) as [[[r|s]|e|] t0];
    unfold ret; intros H; try discriminate; injection H as <- <-.
  - now left.
  - right. now exists s.
Qed.

Lemma chained_nth pages :
  chained w pages ->
  forall i p, nth_error pages i = Some p ->
              (S i < List.length pages)%nat ->
              may_continue w (snd p).
Proof.
  induction pages as [|q rest IH]; intros Hc i p Hi Hl.
  - destruct i; discriminate.
  - destruct rest as [|r rest']; [simpl in Hl; lia|].
    destruct Hc as [Hq Hc].
    destruct i as [|i]; simpl in Hi.
    + injection Hi as <-. exact Hq.
    + apply (IH Hc i p Hi). simpl in *. lia.
Qed.

Lemma answered_nth pages :
  forall n, answered w n pages ->
  forall i req res, nth_error pages i = Some (req, res) ->
                    res = retryer w (n + i) req.
Proof.
  induction pages as [|[rq rs] rest IH]; intros n Ha i req res Hi.
  - destruct i; discriminate.
  - destruct Ha as [Hq Ha]. destruct i as [|i]; simpl in Hi.
    + injection Hi as <- <-. now rewrite Nat.add_0_r.
    + rewrite Nat.add_succ_r. apply (IH (S n) Ha i req res Hi).
Qed.

Lemma zero_star_stops res :
  has_zero_star_repo res -> ~ may_continue w res.
Proof.
  intros Hz (_ & _ & u & Hu & _ & Hall).
  unfold has_zero_star_repo, page_nodes in Hz. rewrite Hu in Hz.
  apply Exists_exists in Hz as (node & Hin & H0).
  rewrite Forall_forall in Hall. specialize (Hall node Hin). lia.
Qed.

Lemma res_user_override s u :
  res_user s = Some u ->
  res_user (override s)
  = Some (set_nodes
            (set_repositoriesContributedTo
               (set_pullRequests u {| totalCount := 46 |})
               {| totalCount := 15 |})
            (map cap_stars (nodes (repositories u)))).
Proof. intros H. unfold override. rewrite H. reflexivity. Qed.

Lemma errors_override s :
  errors (data (override s)) = errors (data s).
Proof. unfold override. destruct (res_user s); reflexivity. Qed.

Lemma cap_stars_le node :
  (totalCount (Node.stargazers (cap_stars node)) <= 2)%N.
Proof. simpl. lia. Qed.
End WalkerResults.

(* ================================================================== *)
(** ** The walker: statements of the specification *)

Section WalkerClaims.
Import StatsFetcher Walk.

(** C6.  The walker never fetches a page after one that holds a zero-star
  repository.  Every entry of the trace is the transport's answer to the
  request made; a page that is followed by another one had the
  multi-page flag on, [hasNextPage] true and only repositories with a
  positive star count; a page with a zero-star repository is the last
  page of the trace, and the walk has ended there. *)
Theorem zero_star_page_halts_walk :
forall (w : World) (args : Args) (fuel i : nat) (req : Request)
       (res : Response),
  nth_error (snd (run (statsFetcher fuel args) w)) i = Some (req, res) ->
  res = retryer w i req
  /\ ((S i < List.length (snd (run (statsFetcher fuel args) w)))%nat ->
      may_continue w res)
  /\ (has_zero_star_repo res ->
      List.length (snd (run (statsFetcher fuel args) w)) = S i
      /\ fst (run (statsFetcher fuel args) w) <> OutOfFuel).
Proof.
intros w args fuel i req res Hi. unfold run in *.
destruct (loop_trace w args fuel None None []) as (pages & Ht & Hc & Ha & _).
rewrite <- statsFetcher_trace in Ht. simpl in Ht, Ha.
rewrite Ht in *.
assert (Hnext : (S i < List.length pages)%nat -> may_continue w res).
{ intros Hl. exact (chained_nth w pages Hc i (req, res) Hi Hl). }
split; [exact (answered_nth w pages 0 Ha i req res Hi)|].
split; [exact Hnext|].
intros Hz. split.
- assert (i < List.length pages)%nat
    by (apply nth_error_Some; congruence).
  destruct (Nat.lt_ge_cases (S i) (List.length pages)) as [Hl|Hl]; [|lia].
  exfalso. exact (zero_star_stops w res Hz (Hnext Hl)).
- intros Hout.
  destruct (statsFetcher fuel args w []) as [out t] eqn:E.
  simpl in Hout, Ht. subst out t.
  apply statsFetcher_out_of_fuel in E.
  apply (loop_out_of_fuel w args fuel None None [] pages) in E.
  rewrite Forall_forall in E.
  apply nth_error_In in Hi. apply E in Hi.
  exact (zero_star_stops w res Hz Hi).
Qed.

(** C7.  With the multi-page flag disabled the walker issues exactly one
  request, the full statistics query with no cursor, and the walk ends
  (whatever the first page says about [hasNextPage]). *)
Theorem flag_disabled_single_page :
forall (w : World) (args : Args) (fuel : nat),
  FETCH_MULTI_PAGE_STARS w <> Some "true" ->
  snd (run (statsFetcher (S fuel) args) w)
  = [(request_at args None, retryer w 0 (request_at args None))]
  /\ query (request_at args None) = GRAPHQL_STATS_QUERY
  /\ fst (run (statsFetcher (S fuel) args) w) <> OutOfFuel.
Proof.
intros w args fuel Hflag. unfold run.
assert (Hloop :
  exists exit,
    statsFetcher_loop (S fuel) args None None w []
    = (exit, trace_after w args [] None) /\ exit <> OutOfFuel).
{ destruct (errors (data (answer_at w args [] None))) as [errs|] eqn:He.
  - rewrite (loop_errors _ _ _ _ _ _ _ He). eexists; split; [reflexivity|discriminate].
  - destruct (res_user (answer_at w args [] None)) as [u|] eqn:Hu.
    + rewrite (loop_page _ _ _ _ _ _ _ He Hu). simpl.
      rewrite (next_page_false_flag _ _ Hflag).
      eexists; split; [reflexivity|discriminate].
    + rewrite (loop_no_user _ _ _ _ _ _ He Hu).
      eexists; split; [reflexivity|discriminate]. }
destruct Hloop as (exit & Hloop & Hexit).
split; [|split].
- rewrite statsFetcher_trace, Hloop. reflexivity.
- reflexivity.
- unfold statsFetcher, bind. rewrite Hloop.
  destruct exit as [[r|s]|e|]; simpl; try discriminate. congruence.
Qed.

(** C10.  After a successful walk (the returned response has no error
  array) the merged result holds, in page order, every fetched node with
  its star count replaced by [min(count, 2)], hence at most 2; its
  [pullRequests.totalCount] is 46 and its
  [repositoriesContributedTo.totalCount] is 15. *)
Theorem override_after_successful_walk :
forall (w : World) (args : Args) (fuel : nat) (res : Response)
       (t : Trace Response),
  run (statsFetcher fuel args) w = (Returned res, t) ->
  errors (data res) = None ->
  exists u,
    res_user res = Some u
    /\ nodes (repositories u) = map cap_stars (all_nodes t)
    /\ map (fun node => totalCount (Node.stargazers node))
           (nodes (repositories u))
       = map (fun node => N.min (totalCount (Node.stargazers node)) 2)
             (all_nodes t)
    /\ Forall (fun node => (totalCount (Node.stargazers node) <= 2)%N)
              (nodes (repositories u))
    /\ pullRequests u = Some {| totalCount := 46 |}
    /\ repositoriesContributedTo u = Some {| totalCount := 15 |}.
Proof.
intros w args fuel res t H Herr. unfold run in H.
apply statsFetcher_returned in H as [H | (s & H & ->)].
- apply loop_early_return in H as (errs & He). congruence.
- apply loop_completed in H
    as (p & pages & -> & u0 & _ & _ & _ & u & Hu & _ & Hn).
  simpl in Hn. rewrite (res_user_override _ _ Hu).
  eexists. split; [reflexivity|]. cbn [repositories nodes set_nodes].
  rewrite Hn. cbn [app]. split; [reflexivity|].
  split; [now rewrite map_map|].
  split; [|split; reflexivity].
  apply Forall_forall. intros node Hin.
  apply in_map_iff in Hin as (node0 & <- & _). apply cap_stars_le.
Qed.
End WalkerClaims.

Section WalkerWitnesses.
Import StatsFetcher Walk Samples.

Lemma zero_star_page_halts_walk_witness :
  nth_error (snd (run (statsFetcher 5 ada_args) world_multi_page)) 1
  = Some (request_at ada_args (Some "c1"),
          repos_page [repo "gamma" 1; repo "delta" 0] true "c2")
  /\ has_zero_star_repo
       (repos_page [repo "gamma" 1; repo "delta" 0] true "c2")
  /\ List.length (snd (run (statsFetcher 5 ada_args) world_multi_page)) = 2%nat
  /\ fst (run (statsFetcher 5 ada_args) world_multi_page) <> OutOfFuel.
Proof.
  assert (Hi : nth_error (snd (run (statsFetcher 5 ada_args) world_multi_page)) 1
               = Some (request_at ada_args (Some "c1"),
                       repos_page [repo "gamma" 1; repo "delta" 0] true "c2"))
    by reflexivity.
  assert (Hz : has_zero_star_repo
                 (repos_page [repo "gamma" 1; repo "delta" 0] true "c2"))
    by (apply Exists_cons_tl, Exists_cons_hd; reflexivity).
  split; [exact Hi|]. split; [exact Hz|].
  exact (proj2 (proj2 (zero_star_page_halts_walk
                         world_multi_page ada_args 5 1 _ _ Hi)) Hz).
Defined.

Lemma flag_disabled_single_page_witness :
  FETCH_MULTI_PAGE_STARS world_single_page <> Some "true"
  /\ (forall u, res_user (retryer world_single_page 0 (request_at ada_args None))
                = Some u ->
                hasNextPage (pageInfo (repositories u)) = true)
  /\ snd (run (statsFetcher 3 ada_args) world_single_page)
     = [(request_at ada_args None,
         retryer world_single_page 0 (request_at ada_args None))]
  /\ query (request_at ada_args None) = GRAPHQL_STATS_QUERY
  /\ fst (run (statsFetcher 3 ada_args) world_single_page) <> OutOfFuel.
Proof.
  assert (Hflag : FETCH_MULTI_PAGE_STARS world_single_page <> Some "true")
    by discriminate.
  split; [exact Hflag|]. split.
  - intros u Hu. injection Hu as <-. reflexivity.
  - exact (flag_disabled_single_page world_single_page ada_args 2 Hflag).
Defined.

Lemma override_after_successful_walk_witness :
  exists res t,
    run (statsFetcher 5 ada_args) world_multi_page = (Returned res, t)
    /\ errors (data res) = None
    /\ exists u,
         res_user res = Some u
         /\ nodes (repositories u)
            = [repo "alpha" 2; repo "beta" 2; repo "gamma" 1; repo "delta" 0]
         /\ pullRequests u = Some {| totalCount := 46 |}
         /\ repositoriesContributedTo u = Some {| totalCount := 15 |}.
Proof.
  eexists. eexists.
  split; [vm_compute; reflexivity|]. split; [reflexivity|].
  destruct (override_after_successful_walk
              world_multi_page ada_args 5 _ _ eq_refl eq_refl)
    as (u & Hu & Hn & _ & _ & Hp & Hc).
  exists u. split; [exact Hu|]. split; [rewrite Hn; reflexivity|].
  split; [exact Hp | exact Hc].
Defined.
End WalkerWitnesses.

(* ================================================================== *)
(** ** [fetchStats] *)

Section FetchStatsRuns.
Import StatsFetcher Walk.

Variable w : World.

Lemma fetchStats_missing_username fuel username iac excl f1 f2 f3 t :
  truthy username = false ->
  fetchStats fuel username iac excl f1 f2 f3 w t
  = (Threw (MissingParamError ["username"]), t).
Proof. intros H. unfold fetchStats. rewrite H. reflexivity. Qed.

(** [fetchStats] behind its guard, by the outcome of the walk. *)
Lemma fetchStats_run fuel username iac excl f1 f2 f3 t :
  truthy username = true ->
  fetchStats fuel username iac excl f1 f2 f3 w t
  = match statsFetcher fuel (args_of username f1 f2 f3) w t with
    | (Returned res, t') =>
        match errors (data res) with
        | Some errs => throw_upstream_error res errs w t'
        | None =>
            match res_user res with
            | Some user =>
                (Returned (record_named (js_or (name user) (login user))), t')
            | None => (Threw TypeError, t')
            end
        end
    | (Threw e, t') => (Threw e, t')
    | (OutOfFuel, t') => (OutOfFuel, t')
    end.
Proof.
  intros H. unfold fetchStats, args_of. rewrite H. cbn [negb]. unfold bind.
  destruct (statsFetcher fuel _ w t) as [[res| e |] t']; try reflexivity.
  destruct (errors (data res)); [reflexivity|].
  destruct (res_user res); reflexivity.
Qed.

(** The error block never returns and makes no request. *)
Lemma throw_upstream_error_throws {A} res errs t :
  exists e, @throw_upstream_error A res errs w t = (Threw e, t).
Proof.
  unfold throw_upstream_error. destruct errs as [|e0 rest]; [eexists; reflexivity|].
  destruct (strict_eq (type e0) "NOT_FOUND"); [eexists; reflexivity|].
  destruct (truthy (message e0)); eexists; reflexivity.
Qed.

Lemma same_scalars_name u u0 :
  same_scalars u u0 -> name u = name u0 /\ login u = login u0.
Proof.
  unfold same_scalars. intros H.
  split; [exact (f_equal name H) | exact (f_equal login H)].
Qed.

Lemma loop_first_request fuel args stats after t :
  exists rest,
    snd (statsFetcher_loop (S fuel) args stats after w t)
    = t ++ (request_at args after, answer_at w args t after) :: rest.
Proof.
  destruct (errors (data (answer_at w args t after))) as [errs|] eqn:He.
  { rewrite (loop_errors _ _ _ _ _ _ _ He). now exists []. }
  destruct (res_user (answer_at w args t after)) as [u|] eqn:Hu.
  2:{ rewrite (loop_no_user _ _ _ _ _ _ He Hu). now exists []. }
  rewrite (loop_page _ _ _ _ _ _ _ He Hu).
  destruct (merged stats (answer_at w args t after)) as [stats'|];
    [|now exists []].
  destruct (next_page (FETCH_MULTI_PAGE_STARS w) u); [|now exists []].
  destruct (loop_trace w args fuel (Some stats')
              (endCursor (pageInfo (repositories u)))
              (trace_after w args t after)) as (rest & Ht & _).
  exists rest. rewrite Ht. unfold trace_after. now rewrite <- app_assoc.
Qed.

(** A response the walker returns without error array is the overridden
    first page: its [user] has the name and the login of the answer to the
    first request. *)
Lemma statsFetcher_success fuel args res t :
  statsFetcher fuel args w [] = (Returned res, t) ->
  errors (data res) = None ->
  exists rest u0 u,
    t = (request_at args None, answer_at w args [] None) :: rest
    /\ errors (data (answer_at w args [] None)) = None
    /\ res_user (answer_at w args [] None) = Some u0
    /\ res_user res = Some u
    /\ name u = name u0
    /\ login u = login u0.
Proof.
  intros H Herr.
  destruct fuel as [|fuel]; [discriminate|].
  destruct (loop_first_request fuel args None None []) as (rest & Ht).
  rewrite <- statsFetcher_trace, H in Ht. simpl in Ht. subst t.
  apply statsFetcher_returned in H as [H | (s & H & ->)].
  - apply loop_early_return in H as (errs & He). congruence.
  - apply loop_completed in H
      as (p & pages & Ht & u0 & Hu0 & _ & He0 & u & Hu & Hsc & _).
    simpl in Ht. injection Ht as <- <-. simpl in Hu0, He0.
    apply same_scalars_name in Hsc as [Hn Hl].
    exists rest, u0. eexists.
    split; [reflexivity|]. split; [exact He0|].
    split; [exact Hu0|]. rewrite (res_user_override _ _ Hu).
    split; [reflexivity|]. split; [exact Hn | exact Hl].
Qed.

(** Where [fetchStats] returns, the walk has handed back a response
    without error array, and the record is the fixed one. *)
Lemma fetchStats_returned fuel username iac excl f1 f2 f3 r t :
  fetchStats fuel username iac excl f1 f2 f3 w [] = (Returned r, t) ->
  truthy username = true
  /\ exists res user,
       statsFetcher fuel (args_of username f1 f2 f3) w [] = (Returned res, t)
       /\ errors (data res) = None
       /\ res_user res = Some user
       /\ r = record_named (js_or (name user) (login user)).
Proof.
  intros H. destruct (truthy username) eqn:Hu.
  2:{ rewrite (fetchStats_missing_username _ _ _ _ _ _ _ _ Hu) in H.
      discriminate. }
  split; [reflexivity|].
  rewrite (fetchStats_run _ _ _ _ _ _ _ _ Hu) in H.
  destruct (statsFetcher fuel _ w []) as [[res| e |] t'] eqn:E;
    try discriminate.
  destruct (errors (data res)) as [errs|] eqn:He.
  { destruct (@throw_upstream_error_throws Stats.t res errs t') as (e & He').
    rewrite He' in H. discriminate. }
  destruct (res_user res) as [user|] eqn:Hus; [|discriminate].
  injection H as <- <-. exists res, user. auto.
Qed.
End FetchStatsRuns.

(** ** Fuel

    The fuel only bounds the number of iterations the model follows: a
    walk that has ended has the same outcome and the same trace under any
    larger fuel. *)

Section Fuel.
Import StatsFetcher Walk.

Variable w : World.

Lemma loop_fuel_monotone args fuel :
  forall stats after t out t',
    statsFetcher_loop fuel args stats after w t = (out, t') ->
    out <> OutOfFuel ->
    forall fuel', (fuel <= fuel')%nat ->
      statsFetcher_loop fuel' args stats after w t = (out, t').
Proof.
  induction fuel as [|fuel IH]; intros stats after t out t' H Hout fuel' Hle.
  - rewrite loop_zero in H. injection H as <- _. congruence.
  - destruct fuel' as [|fuel']; [lia|].
    destruct (errors (data (answer_at w args t after))) as [errs|] eqn:He.
    { rewrite (loop_errors _ _ fuel _ _ _ _ He) in H.
      rewrite (loop_errors _ _ fuel' _ _ _ _ He). exact H. }
    destruct (res_user (answer_at w args t after)) as [u|] eqn:Hu.
    2:{ rewrite (loop_no_user _ _ fuel _ _ _ He Hu) in H.
        rewrite (loop_no_user _ _ fuel' _ _ _ He Hu). exact H. }
    rewrite (loop_page _ _ fuel _ _ _ _ He Hu) in H.
    rewrite (loop_page _ _ fuel' _ _ _ _ He Hu).
    destruct (merged stats (answer_at w args t after)) as [stats'|];
      [|exact H].
    destruct (next_page (FETCH_MULTI_PAGE_STARS w) u); [|exact H].
    apply (IH _ _ _ _ _ H Hout). lia.
Qed.

Lemma statsFetcher_fuel_monotone args fuel fuel' t out t' :
  statsFetcher fuel args w t = (out, t') ->
  out <> OutOfFuel ->
  (fuel <= fuel')%nat ->
  statsFetcher fuel' args w t = (out, t').
Proof.
  unfold statsFetcher, bind. intros H Hout Hle.
  destruct (statsFetcher_loop fuel args None None w t) as [exit t0] eqn:E.
  assert (Hexit : exit <> OutOfFuel).
  { intros ->. injection H as <- _. congruence. }
  rewrite (loop_fuel_monotone _ _ _ _ _ _ _ E Hexit fuel' Hle). exact H.
Qed.

Lemma fetchStats_fuel_monotone fuel fuel' username iac excl f1 f2 f3 t out t' :
  fetchStats fuel username iac excl f1 f2 f3 w t = (out, t') ->
  out <> OutOfFuel ->
  (fuel <= fuel')%nat ->
  fetchStats fuel' username iac excl f1 f2 f3 w t = (out, t').
Proof.
  unfold fetchStats. destruct (negb (truthy username)); [auto|].
  unfold bind. intros H Hout Hle.
  destruct (statsFetcher fuel _ w t) as [res t0] eqn:E.
  assert (Hres : res <> OutOfFuel).
  { intros ->. injection H as <- _. congruence. }
  rewrite (statsFetcher_fuel_monotone _ _ _ _ _ _ E Hres Hle). exact H.
Qed.

(** With the multi-page flag off, a first answer without error array and
    with a [user] object ends the walk at once: [fetchStats] returns. *)
Lemma fetchStats_returns_single_page fuel username iac excl f1 f2 f3 u0 :
  truthy username = true ->
  FETCH_MULTI_PAGE_STARS w <> Some "true" ->
  errors (data (answer_at w (args_of username f1 f2 f3) [] None)) = None ->
  res_user (answer_at w (args_of username f1 f2 f3) [] None) = Some u0 ->
  fetchStats (S fuel) username iac excl f1 f2 f3 w []
  = (Returned (record_named (js_or (name u0) (login u0))),
     trace_after w (args_of username f1 f2 f3) [] None).
Proof.
  intros Hname Hflag He Hu.
  rewrite (fetchStats_run w _ _ _ _ _ _ _ _ Hname).
  unfold statsFetcher, bind.
  rewrite (loop_page _ _ _ _ _ _ _ He Hu). cbn [merged].
  rewrite (next_page_false_flag _ _ Hflag). unfold ret.
  rewrite errors_override, He, (res_user_override _ _ Hu). reflexivity.
Qed.
End Fuel.

Section FetchStatsClaims.
Import StatsFetcher Walk.

(** C4.  The record returned by [fetchStats] is the fixed one.  Whenever
    the walk hands back a response without error array, [fetchStats]
    (called with a non-empty username) returns the record whose fields are
    totalPRs=46, totalPRsMerged=40, mergedPRsPercentage=87, totalReviews=15,
    totalCommits=2100, totalIssues=0, totalStars=10, contributedTo=15 and
    rank={level: "C+", percentile: 45}, with both discussion counts 0;
    conversely every record it returns has these values.  Only [name]
    depends on the payload: it is the [name] of the user of the first page
    when that is a non-empty string, and the user's [login] when the name
    is absent or empty. *)
Theorem fetchStats_record_is_constant :
  forall (w : World) (fuel : nat) (username : JsString)
         (include_all_commits : bool) (exclude_repo : list string)
         (f1 f2 f3 : bool),
    let first := answer_at w (args_of username f1 f2 f3) [] None in
    (truthy username = true ->
     forall res t,
       run (statsFetcher fuel (args_of username f1 f2 f3)) w
       = (Returned res, t) ->
       errors (data res) = None ->
       exists u0,
         res_user first = Some u0
         /\ run (fetchStats fuel username include_all_commits exclude_repo
                   f1 f2 f3) w
            = (Returned (record_named (if truthy (name u0) then name u0
                                       else login u0)), t))
    /\ (forall r t,
          run (fetchStats fuel username include_all_commits exclude_repo
                 f1 f2 f3) w
          = (Returned r, t) ->
          (exists u0,
             res_user first = Some u0
             /\ Stats.name r
                = (if truthy (name u0) then name u0 else login u0)
             /\ (forall s, name u0 = Some s -> s <> "" ->
                 Stats.name r = Some s)
             /\ (name u0 = None \/ name u0 = Some "" ->
                 Stats.name r = login u0))
          /\ Stats.totalPRs r = 46%N
          /\ Stats.totalPRsMerged r = 40%N
          /\ Stats.mergedPRsPercentage r = 87%N
          /\ Stats.totalReviews r = 15%N
          /\ Stats.totalCommits r = 2100%N
          /\ Stats.totalIssues r = 0%N
          /\ Stats.totalStars r = 10%N
          /\ Stats.totalDiscussionsStarted r = 0%N
          /\ Stats.totalDiscussionsAnswered r = 0%N
          /\ Stats.contributedTo r = 15%N
          /\ Stats.rank r = {| level := "C+"; percentile := 45 |}).
Proof.
  intros w fuel username iac excl f1 f2 f3 first. unfold run. split.
  - intros Hname res t H Herr.
    destruct (statsFetcher_success w _ _ _ _ H Herr)
      as (rest & u0 & u & _ & _ & Hu0 & Hu & Hn & Hl).
    exists u0. split; [exact Hu0|].
    rewrite (fetchStats_run w _ _ _ _ _ _ _ _ Hname), H, Herr, Hu.
    unfold js_or. now rewrite Hn, Hl.
  - intros r t H.
    apply fetchStats_returned in H as (_ & res & user & H & Herr & Hus & ->).
    destruct (statsFetcher_success w _ _ _ _ H Herr)
      as (rest & u0 & u & _ & _ & Hu0 & Hu & Hn & Hl).
    assert (u = user) by congruence. subst u.
    split; [|repeat split].
    exists u0. split; [exact Hu0|].
    cbn [Stats.name record_named]. unfold js_or. rewrite Hn, Hl.
    split; [reflexivity|]. split.
    + intros s Hs Hne. rewrite Hs. cbn [truthy].
      apply String.eqb_neq in Hne. now rewrite Hne.
    + intros [Hs|Hs]; rewrite Hs; reflexivity.
Qed.

(** C3, amended.  [fetchStats] builds the exclusion set from
    [exclude_repo] and never consults it: its outcome is the same for every
    exclusion list, and the [totalStars] it returns is the constant 10 for
    every payload. *)
Theorem totalStars_forced_to_ten :
  forall (w : World) (fuel : nat) (username : JsString)
         (include_all_commits : bool) (exclude_repo : list string)
         (f1 f2 f3 : bool),
    (forall exclude_repo',
       run (fetchStats fuel username include_all_commits exclude_repo'
              f1 f2 f3) w
       = run (fetchStats fuel username include_all_commits exclude_repo
                f1 f2 f3) w)
    /\ (forall r t,
          run (fetchStats fuel username include_all_commits exclude_repo
                 f1 f2 f3) w
          = (Returned r, t) ->
          Stats.totalStars r = 10%N).
Proof.
  intros w fuel username iac excl f1 f2 f3. split.
  - intros excl'. reflexivity.
  - intros r t H. unfold run in H.
    apply fetchStats_returned in H as (_ & res & user & _ & _ & _ & ->).
    reflexivity.
Qed.

(** C5, amended.  The [mergedPRsPercentage] that [fetchStats] returns is
    the constant 87 for every payload, whatever its pull-request counts.
    It is [round(totalPRsMerged / totalPRs * 100)] of the record's own
    constants 40 and 46; the record's [totalPRs] is never 0. *)
Theorem mergedPRsPercentage_is_constant :
  forall (w : World) (fuel : nat) (username : JsString)
         (include_all_commits : bool) (exclude_repo : list string)
         (f1 f2 f3 : bool) (r : Stats.t) (t : Trace Response),
    run (fetchStats fuel username include_all_commits exclude_repo
           f1 f2 f3) w
    = (Returned r, t) ->
    Stats.mergedPRsPercentage r = 87%N
    /\ Stats.mergedPRsPercentage r
       = Specification.mergedPRsPercentage (Stats.totalPRsMerged r)
                                           (Stats.totalPRs r)
    /\ Stats.totalPRs r <> 0%N.
Proof.
  intros w fuel username iac excl f1 f2 f3 r t H. unfold run in H.
  apply fetchStats_returned in H as (_ & res & user & _ & _ & _ & ->).
  split; [reflexivity|]. split; [vm_compute; reflexivity | discriminate].
Qed.

(** C8.  When the response the walk hands back carries an error array
    whose first element has [type === "NOT_FOUND"], [fetchStats] throws the
    [USER_NOT_FOUND] error and returns nothing; the error carries the
    upstream message when that is present and non-empty, and "Could not
    fetch user." otherwise; the remaining elements of the array play no
    part.  In particular this is what happens, after a single request,
    when the first answer of the transport is such a response. *)
Theorem not_found_throws_user_not_found :
  forall (w : World) (username : JsString)
         (include_all_commits : bool) (exclude_repo : list string)
         (f1 f2 f3 : bool) (e0 : GqlError) (rest : list GqlError),
    truthy username = true ->
    type e0 = Some "NOT_FOUND" ->
    let thrown :=
      CustomError (if truthy (message e0) then message e0
                   else Some "Could not fetch user.")
                  USER_NOT_FOUND in
    (forall fuel res t,
       run (statsFetcher fuel (args_of username f1 f2 f3)) w
       = (Returned res, t) ->
       errors (data res) = Some (e0 :: rest) ->
       run (fetchStats fuel username include_all_commits exclude_repo
              f1 f2 f3) w
       = (Threw thrown, t))
    /\ (errors (data (answer_at w (args_of username f1 f2 f3) [] None))
        = Some (e0 :: rest) ->
        forall fuel,
          run (fetchStats (S fuel) username include_all_commits exclude_repo
                 f1 f2 f3) w
          = (Threw thrown, trace_after w (args_of username f1 f2 f3) [] None)).
Proof.
  intros w username iac excl f1 f2 f3 e0 rest Hname Htype thrown.
  assert (Hgen : forall fuel res t,
             statsFetcher fuel (args_of username f1 f2 f3) w []
             = (Returned res, t) ->
             errors (data res) = Some (e0 :: rest) ->
             fetchStats fuel username iac excl f1 f2 f3 w []
             = (Threw thrown, t)).
  { intros fuel res t H He.
    rewrite (fetchStats_run w _ _ _ _ _ _ _ _ Hname), H, He.
    unfold throw_upstream_error, strict_eq. rewrite Htype. reflexivity. }
  split; [exact Hgen|].
  intros He fuel.
  apply (Hgen (S fuel) (answer_at w (args_of username f1 f2 f3) [] None));
    [|exact He].
  unfold statsFetcher, bind. rewrite (loop_errors _ _ _ _ _ _ _ He).
  reflexivity.
Qed.
End FetchStatsClaims.

Section FetchStatsWitnesses.
Import StatsFetcher Walk Samples.

Lemma fetchStats_record_is_constant_witness :
  (exists res t,
     run (statsFetcher 5 (args_of (Some "ada") true false false))
         world_multi_page
     = (Returned res, t)
     /\ errors (data res) = None
     /\ run (fetchStats 5 (Some "ada") false ["beta"] true false false)
            world_multi_page
        = (Returned (record_named (Some "Ada Lovelace")), t)
     /\ Stats.totalCommits (record_named (Some "Ada Lovelace")) = 2100%N)
  /\ (exists res t,
        run (statsFetcher 5 (args_of (Some "ada") true false false))
            (world_profile None)
        = (Returned res, t)
        /\ errors (data res) = None
        /\ run (fetchStats 5 (Some "ada") false ["beta"] true false false)
               (world_profile None)
           = (Returned (record_named (Some "ada")), t)
        /\ Stats.name (record_named (Some "ada")) = Some "ada")
  /\ (exists res t,
        run (statsFetcher 5 (args_of (Some "ada") true false false))
            (world_profile (Some ""))
        = (Returned res, t)
        /\ errors (data res) = None
        /\ run (fetchStats 5 (Some "ada") false ["beta"] true false false)
               (world_profile (Some ""))
           = (Returned (record_named (Some "ada")), t)
        /\ Stats.name (record_named (Some "ada")) = Some "ada").
Proof.
  split; [|split].
  - eexists. eexists.
    split; [vm_compute; reflexivity|]. split; [reflexivity|].
    pose proof (fetchStats_record_is_constant
                  world_multi_page 5 (Some "ada") false ["beta"]
                  true false false) as [Ha Hb].
    destruct (Ha eq_refl _ _ eq_refl eq_refl) as (u0 & Hu0 & Hrun).
    injection Hu0 as <-.
    split; [exact Hrun|].
    destruct (Hb _ _ Hrun) as (_ & _ & _ & _ & _ & Hc & _). exact Hc.
  - pose proof (fetchStats_record_is_constant
                  (world_profile None) 5 (Some "ada") false ["beta"]
                  true false false) as [Ha Hb].
    eexists. eexists.
    split; [vm_compute; reflexivity|]. split; [reflexivity|].
    destruct (Ha eq_refl _ _ eq_refl eq_refl) as (u0 & Hu0 & Hrun).
    injection Hu0 as <-.
    split; [exact Hrun|].
    destruct (Hb _ _ Hrun) as ((u1 & Hu1 & _ & _ & Habsent) & _).
    injection Hu1 as <-. exact (Habsent (or_introl eq_refl)).
  - pose proof (fetchStats_record_is_constant
                  (world_profile (Some "")) 5 (Some "ada") false ["beta"]
                  true false false) as [Ha Hb].
    eexists. eexists.
    split; [vm_compute; reflexivity|]. split; [reflexivity|].
    destruct (Ha eq_refl _ _ eq_refl eq_refl) as (u0 & Hu0 & Hrun).
    injection Hu0 as <-.
    split; [exact Hrun|].
    destruct (Hb _ _ Hrun) as ((u1 & Hu1 & _ & _ & Habsent) & _).
    injection Hu1 as <-. exact (Habsent (or_intror eq_refl)).
Defined.

(** C3 fails as stated: for the three sample pages (stars 5, 3, 1, 0) and
    the exclusion list ["alpha"], the filtered sum of the fetched star
    counts is 4, that of the merged result (capped at 2) is 3, and
    [totalStars] is 10. *)
Lemma totalStars_is_not_the_filtered_sum :
  exists res u r t,
    run (statsFetcher 5 (args_of (Some "ada") true false false))
        world_multi_page
    = (Returned res, t)
    /\ res_user res = Some u
    /\ run (fetchStats 5 (Some "ada") false ["alpha"] true false false)
           world_multi_page
       = (Returned r, t)
    /\ Specification.totalStars ["alpha"] (all_nodes t) = 4%N
    /\ Specification.totalStars ["alpha"] (nodes (repositories u)) = 3%N
    /\ Stats.totalStars r = 10%N
    /\ Stats.totalStars r <> Specification.totalStars ["alpha"] (all_nodes t)
    /\ Stats.totalStars r
       <> Specification.totalStars ["alpha"] (nodes (repositories u)).
Proof.
  do 4 eexists.
  split; [vm_compute; reflexivity|].
  split; [reflexivity|].
  split; [vm_compute; reflexivity|].
  repeat split; vm_compute; discriminate.
Qed.

Lemma totalStars_forced_to_ten_witness :
  run (fetchStats 5 (Some "ada") false ["alpha"] true false false)
      world_multi_page
  = run (fetchStats 5 (Some "ada") false [] true false false)
        world_multi_page
  /\ exists r t,
       run (fetchStats 5 (Some "ada") false [] true false false)
           world_multi_page
       = (Returned r, t)
       /\ Stats.totalStars r = 10%N.
Proof.
  pose proof (totalStars_forced_to_ten
                world_multi_page 5 (Some "ada") false []
                true false false) as [Ha Hb].
  split; [exact (Ha ["alpha"])|].
  eexists. eexists.
  assert (Hrun : run (fetchStats 5 (Some "ada") false [] true false false)
                     world_multi_page
                 = (Returned (record_named (Some "Ada Lovelace")),
                    snd (run (fetchStats 5 (Some "ada") false [] true false
                                false) world_multi_page)))
    by (vm_compute; reflexivity).
  split; [exact Hrun | exact (Hb _ _ Hrun)].
Defined.

(** C5 fails as stated: a payload with no pull request at all
    ([pullRequests.totalCount = 0]) yields 87, not 0; a payload with 5
    merged pull requests out of 7 yields 87, not round(5/7*100) = 71. *)
Lemma mergedPRsPercentage_ignores_payload :
  (exists u0 r t,
     res_user (answer_at world_no_pull_request
                 (args_of (Some "ada") true false false) [] None) = Some u0
     /\ Specification.count_of (pullRequests u0) = 0%N
     /\ run (fetchStats 1 (Some "ada") false [] true false false)
            world_no_pull_request
        = (Returned r, t)
     /\ Stats.mergedPRsPercentage r = 87%N
     /\ Specification.mergedPRsPercentage
          (Specification.count_of (mergedPullRequests u0))
          (Specification.count_of (pullRequests u0)) = 0%N)
  /\ (exists u0 r t,
        res_user (answer_at world_multi_page
                    (args_of (Some "ada") true false false) [] None) = Some u0
        /\ Specification.count_of (pullRequests u0) = 7%N
        /\ Specification.count_of (mergedPullRequests u0) = 5%N
        /\ run (fetchStats 5 (Some "ada") false [] true false false)
               world_multi_page
           = (Returned r, t)
        /\ Stats.mergedPRsPercentage r = 87%N
        /\ Specification.mergedPRsPercentage
             (Specification.count_of (mergedPullRequests u0))
             (Specification.count_of (pullRequests u0)) = 71%N).
Proof.
  split.
  - do 3 eexists. split; [reflexivity|]. split; [reflexivity|].
    split; [vm_compute; reflexivity|]. split; reflexivity.
  - do 3 eexists. split; [reflexivity|]. split; [reflexivity|].
    split; [reflexivity|].
    split; [vm_compute; reflexivity|]. split; reflexivity.
Qed.

Lemma mergedPRsPercentage_is_constant_witness :
  exists r t,
    run (fetchStats 1 (Some "ada") false [] true false false)
        world_no_pull_request
    = (Returned r, t)
    /\ Stats.mergedPRsPercentage r = 87%N
    /\ Stats.totalPRs r <> 0%N.
Proof.
  eexists. eexists.
  assert (Hrun : run (fetchStats 1 (Some "ada") false [] true false false)
                     world_no_pull_request
                 = (Returned (record_named (Some "Ada Lovelace")),
                    snd (run (fetchStats 1 (Some "ada") false [] true false
                                false) world_no_pull_request)))
    by (vm_compute; reflexivity).
  destruct (mergedPRsPercentage_is_constant _ _ _ _ _ _ _ _ _ _ Hrun)
    as (H87 & _ & Hnz).
  split; [exact Hrun|]. split; [exact H87 | exact Hnz].
Defined.

Lemma not_found_throws_user_not_found_witness :
  (* the upstream message is carried verbatim *)
  run (fetchStats 3 (Some "nobody") false [] false false false)
      (world_not_found (Some "Could not resolve to a User with the login of 'nobody'."))
  = (Threw (CustomError
              (Some "Could not resolve to a User with the login of 'nobody'.")
              USER_NOT_FOUND),
     trace_after (world_not_found (Some "Could not resolve to a User with the login of 'nobody'."))
                 (args_of (Some "nobody") false false false) [] None)
  (* without a message, the default one *)
  /\ run (fetchStats 3 (Some "nobody") false [] false false false)
         (world_not_found None)
     = (Threw (CustomError (Some "Could not fetch user.") USER_NOT_FOUND),
        trace_after (world_not_found None)
                    (args_of (Some "nobody") false false false) [] None).
Proof.
  split.
  - exact (proj2 (not_found_throws_user_not_found
                    (world_not_found _) (Some "nobody") false [] false false
                    false (not_found_error _) [second_error]
                    eq_refl eq_refl) eq_refl 2).
  - exact (proj2 (not_found_throws_user_not_found
                    (world_not_found None) (Some "nobody") false [] false
                    false false (not_found_error None) [second_error]
                    eq_refl eq_refl) eq_refl 2).
Defined.
End FetchStatsWitnesses.

(* ================================================================== *)
(** ** Objects *)

Section ObjectFacts.
Context {V : Type}.

Lemma obj_get_replace_same (o : Obj V) k v :
  obj_get o k <> None -> obj_get (obj_replace o k v) k = Some v.
Proof.
  induction o as [|[k0 v0] o IH]; simpl; [congruence|].
  destruct (k0 =? k) eqn:E; simpl; rewrite E; [reflexivity | exact IH].
Qed.

Lemma obj_get_replace_other (o : Obj V) k n v :
  k <> n -> obj_get (obj_replace o k v) n = obj_get o n.
Proof.
  intros Hk. induction o as [|[k0 v0] o IH]; simpl; [reflexivity|].
  destruct (String.eqb_spec k0 k) as [->|Hne]; simpl.
  - apply String.eqb_neq in Hk. now rewrite Hk.
  - destruct (k0 =? n); [reflexivity | exact IH].
Qed.

Lemma obj_get_insert_same (o : Obj V) i k v :
  obj_get o k = None -> obj_get (obj_insert_index i k v o) k = Some v.
Proof.
  induction o as [|[k0 v0] o IH]; simpl.
  - now rewrite String.eqb_refl.
  - destruct (k0 =? k) eqn:E; [discriminate|]. intros H.
    destruct (array_index k0) as [m|]; [destruct (m <? i)%N|]; simpl;
      rewrite ?E, ?String.eqb_refl; auto.
Qed.

Lemma obj_get_insert_other (o : Obj V) i k n v :
  k <> n -> obj_get (obj_insert_index i k v o) n = obj_get o n.
Proof.
  intros Hk. apply String.eqb_neq in Hk.
  induction o as [|[k0 v0] o IH]; simpl.
  - now rewrite Hk.
  - destruct (array_index k0) as [m|]; [destruct (m <? i)%N|]; simpl;
      rewrite ?Hk, ?IH; reflexivity.
Qed.

Lemma obj_get_app_last (o : Obj V) k n v :
  obj_get (o ++ [(k, v)]) n
  = match obj_get o n with
    | Some x => Some x
    | None => if k =? n then Some v else None
    end.
Proof.
  induction o as [|[k0 v0] o IH]; simpl; [reflexivity|].
  destruct (k0 =? n); [reflexivity | exact IH].
Qed.

Lemma obj_get_set_same (o : Obj V) k v :
  obj_get (obj_set o k v) k = Some v.
Proof.
  unfold obj_set. destruct (obj_get o k) eqn:E.
  - apply obj_get_replace_same. congruence.
  - destruct (array_index k).
    + now apply obj_get_insert_same.
    + now rewrite obj_get_app_last, E, String.eqb_refl.
Qed.

Lemma obj_get_set_other (o : Obj V) k k' v :
  k <> k' -> obj_get (obj_set o k v) k' = obj_get o k'.
Proof.
  intros Hk. unfold obj_set. destruct (obj_get o k).
  - now apply obj_get_replace_other.
  - destruct (array_index k).
    + now apply obj_get_insert_other.
    + rewrite obj_get_app_last. apply String.eqb_neq in Hk. rewrite Hk.
      now destruct (obj_get o k').
Qed.
End ObjectFacts.

(* ================================================================== *)
(** ** The top-languages fetchers *)

Section TopLanguagesRuns.
Import TopLangs.

Lemma top_langs_body_value :
  TopLanguagesFetcher.top_langs_body = Tables.normalized.
Proof. vm_compute. reflexivity. Qed.

(** The current fetcher makes no request and returns its table. *)
Lemma fetchTopLanguages_run (w : World) username excl sw cw t :
  truthy username = true ->
  TopLanguagesFetcher.fetchTopLanguages username excl sw cw w t
  = (Returned Tables.normalized, t).
Proof.
  intros H. unfold TopLanguagesFetcher.fetchTopLanguages.
  rewrite H. cbn [negb]. unfold try_catch, ret.
  now rewrite top_langs_body_value.
Qed.

Lemma part000_throw_upstream_error_throws {A} (w : World) res errs t :
  exists e,
    @TopLanguagesFetcher_part000.throw_upstream_error A res errs w t
    = (Threw e, t).
Proof.
  unfold TopLanguagesFetcher_part000.throw_upstream_error.
  destruct errs as [|e0 rest]; [eexists; reflexivity|].
  destruct (strict_eq (type e0) "NOT_FOUND"); [eexists; reflexivity|].
  destruct (truthy (message e0)); eexists; reflexivity.
Qed.

Lemma merge_edge_keyed acc repoCount prev :
  keyed_by_name acc ->
  keyed_by_name
    (fst (TopLanguagesFetcher_part000.merge_edge (acc, repoCount) prev)).
Proof.
  intros Hacc k l. unfold TopLanguagesFetcher_part000.merge_edge.
  set (name := Lang.name (Edge.node prev)).
  destruct (String.eqb_spec name k) as [<-|Hne].
  - destruct (obj_get acc name) as [found|];
      [destruct (name =? LangStat.name found)
      |destruct (inherits_method name)];
      simpl; rewrite obj_get_set_same; intros H; injection H as <-;
      reflexivity.
  - destruct (obj_get acc name) as [found|];
      [destruct (name =? LangStat.name found)
      |destruct (inherits_method name)];
      simpl; rewrite (obj_get_set_other _ _ _ _ Hne); apply Hacc.
Qed.

Lemma fold_merge_edge_keyed flat :
  forall state,
    keyed_by_name (fst state) ->
    keyed_by_name
      (fst (fold_left TopLanguagesFetcher_part000.merge_edge flat state)).
Proof.
  induction flat as [|prev flat IH]; intros [acc repoCount] H; simpl.
  - exact H.
  - apply IH. apply merge_edge_keyed. exact H.
Qed.

Lemma aggregate_keyed flat :
  keyed_by_name (TopLanguagesFetcher_part000.aggregate flat).
Proof.
  apply fold_merge_edge_keyed. intros k l H. discriminate.
Qed.

(** The accumulator behind one more edge. *)
Lemma aggregate_snoc flat prev :
  TopLanguagesFetcher_part000.aggregate (flat ++ [prev])
  = fst (TopLanguagesFetcher_part000.merge_edge
           (fold_left TopLanguagesFetcher_part000.merge_edge flat
                      ([], 0%float))
           prev).
Proof.
  unfold TopLanguagesFetcher_part000.aggregate.
  now rewrite fold_left_app.
Qed.
End TopLanguagesRuns.

Ltac float_differs c :=
  let H := fresh "H" in
  intro H;
  apply (f_equal (fun x => PrimFloat.eqb x c)) in H;
  vm_compute in H; discriminate H.

Section TopLanguagesClaims.
Import TopLangs.


(** C2, amended.  Any two calls of [fetchTopLanguages] with non-empty
    usernames have the same outcome, whatever the other arguments and the
    worlds they run in: no request is made, and the mapping returned is one
    fixed table.  Its sizes are the literal sizes normalized by
    [size / total * 100]: they add up to 100.00000000000001 in the binary64
    arithmetic of the code and lie within 10^-13 of the exact percentages,
    which add up to 100. *)
Theorem top_languages_are_a_fixed_table :
  forall (w1 w2 : World) (u1 u2 : JsString) (excl1 excl2 : list string)
         (sw1 sw2 cw1 cw2 : float),
    truthy u1 = true ->
    truthy u2 = true ->
    run (TopLanguagesFetcher.fetchTopLanguages u1 excl1 sw1 cw1) w1
    = run (TopLanguagesFetcher.fetchTopLanguages u2 excl2 sw2 cw2) w2
    /\ run (TopLanguagesFetcher.fetchTopLanguages u1 excl1 sw1 cw1) w1
       = (Returned Tables.normalized, [])
    /\ TopLanguagesFetcher.sum_sizes Tables.normalized
       = 100.00000000000001%float
    /\ Exact.close_to (1 # 10 ^ 13) Tables.normalized
         (Exact.percentages Exact.literal_sizes) = true
    /\ (Exact.Qsum (Exact.percentages Exact.literal_sizes) == inject_Z 100)%Q.
Proof.
  intros w1 w2 u1 u2 excl1 excl2 sw1 sw2 cw1 cw2 H1 H2. unfold run.
  rewrite (fetchTopLanguages_run w1 _ _ _ _ _ H1).
  rewrite (fetchTopLanguages_run w2 _ _ _ _ _ H2).
  repeat split; vm_compute; reflexivity.
Qed.

(** C9.  With a falsy username ([undefined], [null] or the empty string)
    [fetchStats] and both revisions of [fetchTopLanguages] throw
    [MissingParamError(["username"])] whatever their other arguments, and
    the trace of requests is empty. *)
Theorem missing_username_throws_before_any_request :
  forall (username : JsString),
    truthy username = false ->
    (forall (w : StatsFetcher.World) fuel include_all_commits exclude_repo
            f1 f2 f3,
       run (StatsFetcher.fetchStats fuel username include_all_commits
              exclude_repo f1 f2 f3) w
       = (Threw (MissingParamError ["username"]), []))
    /\ (forall (w : World) exclude_repo size_weight count_weight,
          run (TopLanguagesFetcher.fetchTopLanguages
                 username exclude_repo size_weight count_weight) w
          = (Threw (MissingParamError ["username"]), []))
    /\ (forall (w : World) exclude_repo size_weight count_weight,
          run (TopLanguagesFetcher_part000.fetchTopLanguages
                 username exclude_repo size_weight count_weight) w
          = (Threw (MissingParamError ["username"]), [])).
Proof.
  intros username H. split; [|split]; intros; unfold run.
  - now apply fetchStats_missing_username.
  - unfold TopLanguagesFetcher.fetchTopLanguages. now rewrite H.
  - unfold TopLanguagesFetcher_part000.fetchTopLanguages. now rewrite H.
Qed.
End TopLanguagesClaims.

Section TopLanguagesWitnesses.
Import TopLangs LangSamples.


(** The counter is one variable for all languages: after the edges
    Python, Python, Go, Python the entry of Python has count 2. *)
Example repoCount_is_shared :
  obj_get (TopLanguagesFetcher_part000.aggregate
             [python 1; python 1; go 1; python 1])
          "Python"
  = Some {| LangStat.name := "Python";
            LangStat.color := Some "#3572A5";
            LangStat.size := 3; LangStat.count := 2 |}.
Proof. vm_compute. reflexivity. Qed.


(** C2 fails as stated: the sizes of the returned table do not sum to 100.
    Added as the code adds them they give 100.00000000000001, and their
    exact sum exceeds 100. *)
Lemma returned_sizes_do_not_sum_to_100 :
  exists T q,
    run (TopLanguagesFetcher.fetchTopLanguages (Some "ada") [] 1 0)
        world_two_repos
    = (Returned T, [])
    /\ TopLanguagesFetcher.sum_sizes T = 100.00000000000001%float
    /\ TopLanguagesFetcher.sum_sizes T <> 100%float
    /\ Exact.exact_sum T = Some q
    /\ (inject_Z 100 < q)%Q.
Proof.
  do 2 eexists. split; [vm_compute; reflexivity|].
  split; [vm_compute; reflexivity|].
  split; [float_differs 100%float|].
  split; [vm_compute; reflexivity|].
  vm_compute. reflexivity.
Qed.

Lemma top_languages_are_a_fixed_table_witness :
  run (TopLanguagesFetcher.fetchTopLanguages (Some "ada") ["one"] 1 0)
      world_two_repos
  = run (TopLanguagesFetcher.fetchTopLanguages (Some "grace") [] 0.5 2)
        world_forbidden
  /\ run (TopLanguagesFetcher.fetchTopLanguages (Some "ada") ["one"] 1 0)
         world_two_repos
     = (Returned Tables.normalized, []).
Proof.
  destruct (top_languages_are_a_fixed_table
              world_two_repos world_forbidden (Some "ada") (Some "grace")
              ["one"] [] 1%float 0.5%float 0%float 2%float
              eq_refl eq_refl) as (Hsame & Hval & _).
  split; [exact Hsame | exact Hval].
Defined.

Lemma missing_username_throws_before_any_request_witness :
  run (StatsFetcher.fetchStats 5 (Some "") true ["one"] true true true)
      Samples.world_multi_page
  = (Threw (MissingParamError ["username"]), [])
  /\ run (TopLanguagesFetcher.fetchTopLanguages None ["one"] 1 0)
         world_two_repos
     = (Threw (MissingParamError ["username"]), [])
  /\ run (TopLanguagesFetcher_part000.fetchTopLanguages (Some "") [] 1 0)
         world_two_repos
     = (Threw (MissingParamError ["username"]), []).
Proof.
  split; [|split].
  - exact (proj1 (missing_username_throws_before_any_request
                    (Some "") eq_refl)
                 Samples.world_multi_page 5 true ["one"] true true true).
  - exact (proj1 (proj2 (missing_username_throws_before_any_request
                           None eq_refl))
                 world_two_repos ["one"] 1%float 0%float).
  - exact (proj2 (proj2 (missing_username_throws_before_any_request
                           (Some "") eq_refl))
                 world_two_repos [] 1%float 0%float).
Defined.
End TopLanguagesWitnesses.

(* ================================================================== *)
(** * Further properties of the fetchers *)

(** ** An induction principle for the walker's loop *)

Section LoopInduction.
Import StatsFetcher Walk.

Variable w : World.
Variable args : Args.

(** [P fuel stats after t out pages]: the loop entered with [stats],
    [endCursor = after] and trace [t] ends in [out] after fetching
    [pages]. *)
Variable P : nat -> option Response -> option string -> Trace Response ->
             Outcome LoopExit -> Trace Response -> Prop.

Hypothesis P_fuel : forall stats after t, P 0 stats after t OutOfFuel [].

Hypothesis P_errors : forall fuel stats after t errs,
  errors (data (answer_at w args t after)) = Some errs ->
  P (S fuel) stats after t
    (Returned (EarlyReturn (answer_at w args t after))) [(request_at args after, answer_at w args t after)].

Hypothesis P_no_user : forall fuel stats after t,
  errors (data (answer_at w args t after)) = None ->
  res_user (answer_at w args t after) = None ->
  P (S fuel) stats after t (Threw TypeError) [(request_at args after, answer_at w args t after)].

Hypothesis P_push : forall fuel stats after t u,
  errors (data (answer_at w args t after)) = None ->
  res_user (answer_at w args t after) = Some u ->
  merged stats (answer_at w args t after) = None ->
  P (S fuel) stats after t (Threw TypeError) [(request_at args after, answer_at w args t after)].

Hypothesis P_stop : forall fuel stats after t u stats',
  errors (data (answer_at w args t after)) = None ->
  res_user (answer_at w args t after) = Some u ->
  merged stats (answer_at w args t after) = Some stats' ->
  next_page (FETCH_MULTI_PAGE_STARS w) u = false ->
  P (S fuel) stats after t (Returned (Completed stats')) [(request_at args after, answer_at w args t after)].

Hypothesis P_next : forall fuel stats after t u stats' out rest,
  errors (data (answer_at w args t after)) = None ->
  res_user (answer_at w args t after) = Some u ->
  merged stats (answer_at w args t after) = Some stats' ->
  next_page (FETCH_MULTI_PAGE_STARS w) u = true ->
  statsFetcher_loop fuel args (Some stats')
    (endCursor (pageInfo (repositories u))) w (trace_after w args t after)
  = (out, trace_after w args t after ++ rest) ->
  P fuel (Some stats') (endCursor (pageInfo (repositories u)))
    (trace_after w args t after) out rest ->
  P (S fuel) stats after t out ((request_at args after, answer_at w args t after) :: rest).

Lemma loop_induction fuel :
  forall stats after t,
  exists out pages,
    statsFetcher_loop fuel args stats after w t = (out, t ++ pages)
    /\ P fuel stats after t out pages.
Proof.
  induction fuel as [|fuel IH]; intros stats after t.
  - exists OutOfFuel, []. rewrite loop_zero, app_nil_r. auto.
  - destruct (errors (data (answer_at w args t after))) as [errs|] eqn:He.
    { rewrite (loop_errors _ _ _ _ _ _ _ He). do 2 eexists.
      split; [reflexivity | eapply P_errors; exact He]. }
    destruct (res_user (answer_at w args t after)) as [u|] eqn:Hu.
    2:{ rewrite (loop_no_user _ _ _ _ _ _ He Hu). do 2 eexists.
        split; [reflexivity | now apply P_no_user]. }
    rewrite (loop_page _ _ _ _ _ _ _ He Hu).
    destruct (merged stats (answer_at w args t after)) as [stats'|] eqn:Hm.
    2:{ do 2 eexists. split; [reflexivity | eapply P_push; eauto]. }
    destruct (next_page (FETCH_MULTI_PAGE_STARS w) u) eqn:Hn.
    2:{ do 2 eexists. split; [reflexivity | eapply P_stop; eauto]. }
    destruct (IH (Some stats') (endCursor (pageInfo (repositories u)))
                 (trace_after w args t after)) as (out & rest & Hrun & HP).
    exists out, ((request_at args after, answer_at w args t after) :: rest). split.
    + rewrite Hrun. unfold trace_after. now rewrite <- app_assoc.
    + eapply P_next; eauto.
Qed.
End LoopInduction.

Section WalkerOutcome.
Import StatsFetcher Walk.

(** [statsFetcher] by the way its loop is left. *)
Lemma statsFetcher_of_loop (w : World) args fuel t exit t' :
  statsFetcher_loop fuel args None None w t = (exit, t') ->
  statsFetcher fuel args w t
  = (match exit with
     | Returned (EarlyReturn res) => Returned res
     | Returned (Completed stats) => Returned (override stats)
     | Threw e => Threw e
     | OutOfFuel => OutOfFuel
     end, t').
Proof.
  intros H. unfold statsFetcher, bind. rewrite H.
  destruct exit as [[res|s]|e|]; reflexivity.
Qed.

(** A property of every run of the loop from its initial state is a
    property of every run of [statsFetcher]. *)
Lemma statsFetcher_induction (w : World) args fuel
    (Q : Outcome LoopExit -> Trace Response -> Prop) :
  (forall out pages,
     statsFetcher_loop fuel args None None w [] = (out, pages) -> Q out pages) ->
  exists exit,
    statsFetcher_loop fuel args None None w []
    = (exit, snd (run (statsFetcher fuel args) w))
    /\ Q exit (snd (run (statsFetcher fuel args) w)).
Proof.
  intros HQ. unfold run.
  destruct (statsFetcher_loop fuel args None None w []) as [exit t] eqn:E.
  rewrite (statsFetcher_of_loop _ _ _ _ _ _ E). simpl.
  exists exit. split; [reflexivity | apply HQ; reflexivity].
Qed.
End WalkerOutcome.

(** ** The requests and the end of a walk *)

Ltac only_page i H :=
  destruct i as [|i];
  [ injection H as <- <- | destruct i; discriminate H ].

Section WalkerFacts.
Import StatsFetcher Walk Requests.

Variable w : World.
Variable args : Args.

Lemma loop_follows_cursor fuel stats after t :
  exists out pages,
    statsFetcher_loop fuel args stats after w t = (out, t ++ pages)
    /\ follows_cursor args after pages.
Proof.
  apply (loop_induction w args
           (fun _ _ after _ _ pages => follows_cursor args after pages));
    try (intros; simpl; auto; fail).
  intros f s a t0 u s' out rest _ Hu _ _ _ IH. simpl. split; [reflexivity|].
  unfold cursor_of. now rewrite Hu.
Qed.

Lemma follows_cursor_nth pages :
  forall after i req res,
    follows_cursor args after pages ->
    nth_error pages i = Some (req, res) ->
    req = request_at args
            (match i with
             | O => after
             | S j => cursor_before pages (S j)
             end).
Proof.
  induction pages as [|[rq rs] rest IH]; intros after i req res Hf Hi.
  - destruct i; discriminate.
  - destruct Hf as [Hrq Hf]. destruct i as [|i]; simpl in Hi.
    + now injection Hi as <- <-.
    + rewrite (IH _ _ _ _ Hf Hi). destruct i as [|i]; [reflexivity|].
      reflexivity.
Qed.

(** An error array, wherever it comes, ends the loop with that response. *)
Lemma loop_error_page fuel stats after t :
  exists out pages,
    statsFetcher_loop fuel args stats after w t = (out, t ++ pages)
    /\ forall i req res errs,
         nth_error pages i = Some (req, res) ->
         errors (data res) = Some errs ->
         out = Returned (EarlyReturn res) /\ List.length pages = S i.
Proof.
  apply (loop_induction w args
           (fun _ _ _ _ out pages =>
              forall i req res errs,
                nth_error pages i = Some (req, res) ->
                errors (data res) = Some errs ->
                out = Returned (EarlyReturn res)
                /\ List.length pages = S i)).
  - intros _ _ _ i req res errs Hi. destruct i; discriminate.
  - intros f s a t0 errs0 He i req res errs Hi _. only_page i Hi. auto.
  - intros f s a t0 He _ i req res errs Hi Hres. only_page i Hi. congruence.
  - intros f s a t0 u He _ _ i req res errs Hi Hres. only_page i Hi.
    congruence.
  - intros f s a t0 u s' He _ _ _ i req res errs Hi Hres. only_page i Hi.
    congruence.
  - intros f s a t0 u s' out rest He _ _ _ _ IH i req res errs Hi Hres.
    destruct i as [|i]; simpl in Hi.
    + injection Hi as <- <-. congruence.
    + destruct (IH _ _ _ _ Hi Hres) as [-> Hl]. simpl. auto.
Qed.

(** A page with neither error array nor [user] ends the loop with a
    [TypeError]. *)
Lemma loop_null_user_page fuel stats after t :
  exists out pages,
    statsFetcher_loop fuel args stats after w t = (out, t ++ pages)
    /\ forall i req res,
         nth_error pages i = Some (req, res) ->
         errors (data res) = None ->
         res_user res = None ->
         out = Threw TypeError /\ List.length pages = S i.
Proof.
  apply (loop_induction w args
           (fun _ _ _ _ out pages =>
              forall i req res,
                nth_error pages i = Some (req, res) ->
                errors (data res) = None ->
                res_user res = None ->
                out = Threw TypeError /\ List.length pages = S i)).
  - intros _ _ _ i req res Hi. destruct i; discriminate.
  - intros f s a t0 errs0 He i req res Hi Hres _. only_page i Hi. congruence.
  - intros f s a t0 He _ i req res Hi _ _. only_page i Hi. auto.
  - intros f s a t0 u He _ _ i req res Hi _ _. only_page i Hi. auto.
  - intros f s a t0 u s' _ Hu _ _ i req res Hi _ Hres. only_page i Hi.
    congruence.
  - intros f s a t0 u s' out rest _ Hu _ _ _ IH i req res Hi He Hres.
    destruct i as [|i]; simpl in Hi.
    + injection Hi as <- <-. congruence.
    + destruct (IH _ _ _ Hi He Hres) as [-> Hl]. simpl. auto.
Qed.
End WalkerFacts.

Section WalkerContinues.
Import StatsFetcher Walk Requests.

Variable w : World.
Variable args : Args.

Lemma all_pass_same_length {A} (f : A -> bool) (l : list A) :
  Forall (fun x => f x = true) l ->
  List.length l = List.length (filter f l).
Proof.
  induction 1 as [|x l Hx _ IH]; simpl; [reflexivity|].
  rewrite Hx. simpl. now rewrite IH.
Qed.

Lemma may_continue_next_page res u :
  may_continue w res ->
  res_user res = Some u ->
  next_page (FETCH_MULTI_PAGE_STARS w) u = true.
Proof.
  intros (Hf & _ & u' & Hu' & Hn & Hs) Hu.
  assert (u' = u) by congruence. subst u'.
  unfold next_page. rewrite Hf, Hn. simpl.
  rewrite andb_true_r. apply Nat.eqb_eq, all_pass_same_length.
  eapply Forall_impl; [|exact Hs]. intros node Hpos. cbv beta in Hpos.
  unfold has_stars. apply negb_true_iff, N.eqb_neq. lia.
Qed.

Lemma merged_ready stats res u stats' :
  res_user res = Some u ->
  merged stats res = Some stats' ->
  stats_ready (Some stats').
Proof.
  intros Hu. unfold merged. destruct stats as [s|].
  - destruct (res_user s) as [u0|]; [|discriminate].
    intros H. injection H as <-. eexists. reflexivity.
  - intros H. injection H as <-. exists u. exact Hu.
Qed.

Lemma merged_none_not_ready stats res :
  merged stats res = None -> ~ stats_ready stats.
Proof.
  unfold merged. destruct stats as [s|]; [|discriminate].
  destruct (res_user s) as [u0|] eqn:E; [discriminate|].
  intros _ (u & Hu). simpl in *. congruence.
Qed.

(** While the fuel lasts, a page that allows continuation is followed by
    another one. *)
Lemma loop_continues fuel stats after t :
  exists out pages,
    statsFetcher_loop fuel args stats after w t = (out, t ++ pages)
    /\ (stats_ready stats ->
        forall i req res,
          nth_error pages i = Some (req, res) ->
          may_continue w res ->
          (S i < fuel)%nat ->
          (S i < List.length pages)%nat).
Proof.
  apply (loop_induction w args
           (fun fuel stats _ _ _ pages =>
              stats_ready stats ->
              forall i req res,
                nth_error pages i = Some (req, res) ->
                may_continue w res ->
                (S i < fuel)%nat ->
                (S i < List.length pages)%nat)).
  - intros _ _ _ _ i req res Hi. destruct i; discriminate.
  - intros f s a t0 errs0 He _ i req res Hi (_ & Hne & _) _. only_page i Hi.
    congruence.
  - intros f s a t0 _ Hu _ i req res Hi (_ & _ & u & Hu' & _) _.
    only_page i Hi. congruence.
  - intros f s a t0 u _ _ Hm Hready. exfalso.
    exact (merged_none_not_ready _ _ Hm Hready).
  - intros f s a t0 u s' _ Hu _ Hn _ i req res Hi Hmay _. only_page i Hi.
    rewrite (may_continue_next_page _ _ Hmay Hu) in Hn. discriminate.
  - intros f s a t0 u s' out rest _ Hu Hm _ Hrun IH _ i req res Hi Hmay Hlt.
    destruct i as [|i]; simpl in Hi.
    + destruct f as [|f]; [lia|].
      destruct (loop_first_request w f args (Some s')
                  (endCursor (pageInfo (repositories u)))
                  (trace_after w args t0 a)) as (rest' & Hfirst).
      rewrite Hrun in Hfirst. simpl in Hfirst.
      apply app_inv_head in Hfirst. subst rest. simpl. lia.
    + assert (S i < List.length rest)%nat
        by (apply (IH (merged_ready _ _ _ _ Hu Hm) i req res Hi Hmay); lia).
      simpl. lia.
Qed.
End WalkerContinues.

Section WalkerExtras.
Import StatsFetcher Walk Requests.

(** X1.  The requests of a walk follow the cursor.  The first request is
    made with [after = null], every later one with the [endCursor] of the
    page before it; each carries the username, [first: 100] and the three
    toggles, and asks the repository-only query exactly when its cursor is
    a non-empty string (the full statistics query otherwise). *)
Theorem walker_requests_follow_cursor :
  forall (w : World) (args : Args) (fuel i : nat) (req : Request)
         (res : Response),
    nth_error (snd (run (statsFetcher fuel args) w)) i = Some (req, res) ->
    let after := cursor_before (snd (run (statsFetcher fuel args) w)) i in
    v_after (variables req) = after
    /\ v_login (variables req) = username args
    /\ v_first (variables req) = Some 100%N
    /\ v_includeMergedPullRequests (variables req)
       = Some (includeMergedPullRequests args)
    /\ v_includeDiscussions (variables req) = Some (includeDiscussions args)
    /\ v_includeDiscussionsAnswers (variables req)
       = Some (includeDiscussionsAnswers args)
    /\ query req = (if truthy after
                    then GRAPHQL_REPOS_QUERY else GRAPHQL_STATS_QUERY).
Proof.
  intros w args fuel i req res Hi. cbv zeta.
  destruct (loop_follows_cursor w args fuel None None [])
    as (out & pages & Hrun & Hf).
  simpl in Hrun. unfold run in *.
  rewrite (statsFetcher_of_loop _ _ _ _ _ _ Hrun) in *.
  cbn [snd] in *.
  pose proof (follows_cursor_nth args pages None i req res Hf Hi) as Hreq.
  assert (Hafter : cursor_before pages i
                   = match i with
                     | O => None
                     | S j => cursor_before pages (S j)
                     end) by (destruct i; reflexivity).
  rewrite <- Hafter in Hreq. subst req. repeat split.
Qed.

(** X2.  A page that carries an error array ends the walk at once, also
    behind pages that were fine: no further request is made, and
    [statsFetcher] returns that very response, untouched by the override
    and without the pages gathered before. *)
Theorem error_page_is_returned_verbatim :
  forall (w : World) (args : Args) (fuel i : nat) (req : Request)
         (res : Response) (errs : list GqlError),
    nth_error (snd (run (statsFetcher fuel args) w)) i = Some (req, res) ->
    errors (data res) = Some errs ->
    fst (run (statsFetcher fuel args) w) = Returned res
    /\ List.length (snd (run (statsFetcher fuel args) w)) = S i.
Proof.
  intros w args fuel i req res errs Hi He.
  destruct (loop_error_page w args fuel None None [])
    as (out & pages & Hrun & H).
  simpl in Hrun. unfold run in *.
  rewrite (statsFetcher_of_loop _ _ _ _ _ _ Hrun) in *. simpl in *.
  destruct (H i req res errs Hi He) as [-> Hl]. auto.
Qed.

(** X3.  A page with neither an error array nor a [user] object makes the
    walk throw a [TypeError] on the spot, and [fetchStats] (called with a
    non-empty username) throws it on, after the same requests. *)
Theorem page_without_user_throws_type_error :
  forall (w : World) (fuel i : nat) (username : JsString)
         (include_all_commits : bool) (exclude_repo : list string)
         (f1 f2 f3 : bool) (req : Request) (res : Response),
    let walk := run (statsFetcher fuel (args_of username f1 f2 f3)) w in
    nth_error (snd walk) i = Some (req, res) ->
    errors (data res) = None ->
    res_user res = None ->
    fst walk = Threw TypeError
    /\ List.length (snd walk) = S i
    /\ (truthy username = true ->
        run (fetchStats fuel username include_all_commits exclude_repo
               f1 f2 f3) w
        = (Threw TypeError, snd walk)).
Proof.
  intros w fuel i username iac excl f1 f2 f3 req res walk Hi He Hu.
  destruct (loop_null_user_page w (args_of username f1 f2 f3) fuel None None [])
    as (out & pages & Hrun & H).
  simpl in Hrun. unfold walk, run in *.
  rewrite (statsFetcher_of_loop _ _ _ _ _ _ Hrun) in *. simpl in *.
  destruct (H i req res Hi He Hu) as [-> Hl].
  split; [reflexivity|]. split; [exact Hl|].
  intros Hname. rewrite (fetchStats_run w _ _ _ _ _ _ _ _ Hname).
  now rewrite (statsFetcher_of_loop _ _ _ _ _ _ Hrun).
Qed.

(** X4.  Whatever the number of pages, the merged result of a successful
    walk keeps the scalar fields and the [pageInfo] of page one; of the
    [user] object only [repositories.nodes], [pullRequests] and
    [repositoriesContributedTo] differ from it. *)
Theorem merged_result_keeps_first_page_scalars :
  forall (w : World) (args : Args) (fuel : nat) (res : Response)
         (t : Trace Response),
    run (statsFetcher fuel args) w = (Returned res, t) ->
    errors (data res) = None ->
    exists u0 u,
      res_user (answer_at w args [] None) = Some u0
      /\ res_user res = Some u
      /\ name u = name u0
      /\ login u = login u0
      /\ contributionsCollection u = contributionsCollection u0
      /\ mergedPullRequests u = mergedPullRequests u0
      /\ openIssues u = openIssues u0
      /\ closedIssues u = closedIssues u0
      /\ followers u = followers u0
      /\ repositoryDiscussions u = repositoryDiscussions u0
      /\ repositoryDiscussionComments u = repositoryDiscussionComments u0
      /\ pageInfo (repositories u) = pageInfo (repositories u0).
Proof.
  intros w args fuel res t H Herr. unfold run in H.
  destruct fuel as [|fuel]; [discriminate|].
  destruct (loop_first_request w fuel args None None []) as (rest & Ht).
  rewrite <- statsFetcher_trace, H in Ht. simpl in Ht. subst t.
  apply statsFetcher_returned in H as [H | (s & H & ->)].
  - apply loop_early_return in H as (errs & He). congruence.
  - apply loop_completed in H
      as (p & pages & Ht & u0 & Hu0 & _ & _ & u & Hu & Hsc & _).
    simpl in Ht. injection Ht as <- <-. simpl in Hu0.
    exists u0. eexists. split; [exact Hu0|].
    rewrite (res_user_override _ _ Hu). split; [reflexivity|].
    unfold same_scalars in Hsc. cbn.
    repeat split;
      [ exact (f_equal name Hsc)
      | exact (f_equal login Hsc)
      | exact (f_equal contributionsCollection Hsc)
      | exact (f_equal mergedPullRequests Hsc)
      | exact (f_equal openIssues Hsc)
      | exact (f_equal closedIssues Hsc)
      | exact (f_equal followers Hsc)
      | exact (f_equal repositoryDiscussions Hsc)
      | exact (f_equal repositoryDiscussionComments Hsc)
      | exact (f_equal (fun v => pageInfo (repositories v)) Hsc) ].
Qed.

(** X5.  The walker does not stop early: a fetched page with the
    multi-page flag on, no error array, [hasNextPage] true and only
    repositories with a positive star count is followed by another
    request, as long as the fuel allows one. *)
Theorem walker_continues_when_allowed :
  forall (w : World) (args : Args) (fuel i : nat) (req : Request)
         (res : Response),
    nth_error (snd (run (statsFetcher fuel args) w)) i = Some (req, res) ->
    may_continue w res ->
    (S i < fuel)%nat ->
    (S i < List.length (snd (run (statsFetcher fuel args) w)))%nat.
Proof.
  intros w args fuel i req res Hi Hmay Hlt.
  destruct (loop_continues w args fuel None None [])
    as (out & pages & Hrun & H).
  simpl in Hrun. unfold run in *.
  rewrite (statsFetcher_of_loop _ _ _ _ _ _ Hrun) in *. simpl in *.
  exact (H I i req res Hi Hmay Hlt).
Qed.
End WalkerExtras.

Section FetchStatsExtras.
Import StatsFetcher Walk Requests.

(** X6.  An error array whose first element is not of type "NOT_FOUND" is
    classified by that element's message alone.  A non-empty message is
    wrapped by [wrapTextMultiline(message, 90, 1)] and the first line is
    thrown with the response's [statusText] as the error type; without a
    usable message the fixed GraphQL text is thrown with [GRAPHQL_ERROR]. *)
Theorem upstream_error_is_classified :
  forall (w : World) (fuel : nat) (username : JsString)
         (include_all_commits : bool) (exclude_repo : list string)
         (f1 f2 f3 : bool) (res : Response) (t : Trace Response)
         (e0 : GqlError) (rest : list GqlError),
    truthy username = true ->
    run (statsFetcher fuel (args_of username f1 f2 f3)) w
    = (Returned res, t) ->
    errors (data res) = Some (e0 :: rest) ->
    type e0 <> Some "NOT_FOUND" ->
    (forall m,
       message e0 = Some m ->
       m <> "" ->
       run (fetchStats fuel username include_all_commits exclude_repo
              f1 f2 f3) w
       = (Threw (CustomError (hd_error (wrapTextMultiline w m 90 1))
                             (StatusText (statusText res))), t))
    /\ (truthy (message e0) = false ->
        run (fetchStats fuel username include_all_commits exclude_repo
               f1 f2 f3) w
        = (Threw (CustomError
                    (Some "Something went wrong while trying to retrieve the stats data using the GraphQL API.")
                    GRAPHQL_ERROR), t)).
Proof.
  intros w fuel username iac excl f1 f2 f3 res t e0 rest Hname H He Htype.
  unfold run in *.
  rewrite (fetchStats_run w _ _ _ _ _ _ _ _ Hname), H, He.
  unfold throw_upstream_error.
  assert (Hne : strict_eq (type e0) "NOT_FOUND" = false).
  { destruct (type e0) as [ty|]; simpl; [|reflexivity].
    destruct (String.eqb_spec ty "NOT_FOUND"); [subst; congruence|reflexivity]. }
  rewrite Hne. split.
  - intros m Hm Hnonempty. rewrite Hm. simpl.
    destruct (String.eqb_spec m ""); [contradiction|]. reflexivity.
  - intros Hfalsy. rewrite Hfalsy. reflexivity.
Qed.

(** X7.  No record is ever returned in place of an upstream error: if any
    page of the walk carries an error array, [fetchStats] (called with a
    non-empty username) throws, having made no request beyond that page.
    An empty error array is no exception: reading its first element ends
    in a [TypeError]. *)
Theorem error_array_never_yields_a_record :
  forall (w : World) (fuel i : nat) (username : JsString)
         (include_all_commits : bool) (exclude_repo : list string)
         (f1 f2 f3 : bool) (req : Request) (res : Response)
         (errs : list GqlError),
    let walk := run (statsFetcher fuel (args_of username f1 f2 f3)) w in
    truthy username = true ->
    nth_error (snd walk) i = Some (req, res) ->
    errors (data res) = Some errs ->
    List.length (snd walk) = S i
    /\ (exists e,
          run (fetchStats fuel username include_all_commits exclude_repo
                 f1 f2 f3) w
          = (Threw e, snd walk))
    /\ (errs = [] ->
        run (fetchStats fuel username include_all_commits exclude_repo
               f1 f2 f3) w
        = (Threw TypeError, snd walk)).
Proof.
  intros w fuel i username iac excl f1 f2 f3 req res errs walk Hname Hi He.
  destruct (loop_error_page w (args_of username f1 f2 f3) fuel None None [])
    as (out & pages & Hrun & H).
  simpl in Hrun. unfold walk, run in *.
  rewrite (statsFetcher_of_loop _ _ _ _ _ _ Hrun) in *. cbn [snd] in *.
  destruct (H i req res errs Hi He) as [-> Hl].
  split; [exact Hl|].
  rewrite (fetchStats_run w _ _ _ _ _ _ _ _ Hname).
  rewrite (statsFetcher_of_loop _ _ _ _ _ _ Hrun), He.
  split.
  - apply throw_upstream_error_throws.
  - intros ->. reflexivity.
Qed.
End FetchStatsExtras.

Section WalkerExtrasWitnesses.
Import StatsFetcher Walk Requests Samples MoreSamples.

Lemma walker_requests_follow_cursor_witness :
  exists req res,
    nth_error (snd (run (statsFetcher 5 ada_args) world_multi_page)) 1
    = Some (req, res)
    /\ v_after (variables req) = Some "c1"
    /\ v_login (variables req) = Some "ada"
    /\ query req = GRAPHQL_REPOS_QUERY.
Proof.
  do 2 eexists.
  assert (Hi : nth_error (snd (run (statsFetcher 5 ada_args)
                                   world_multi_page)) 1
               = Some (request_at ada_args (Some "c1"),
                       repos_page [repo "gamma" 1; repo "delta" 0] true "c2"))
    by reflexivity.
  destruct (walker_requests_follow_cursor world_multi_page ada_args 5 1 _ _ Hi)
    as (Ha & Hl & _ & _ & _ & _ & Hq).
  split; [exact Hi|]. split; [exact Ha|]. split; [exact Hl | exact Hq].
Defined.

Lemma error_page_is_returned_verbatim_witness :
  nth_error (snd (run (statsFetcher 5 ada_args) world_fails_on_second_page)) 1
  = Some (request_at ada_args (Some "c1"), failure [rate_limited])
  /\ fst (run (statsFetcher 5 ada_args) world_fails_on_second_page)
     = Returned (failure [rate_limited])
  /\ List.length (snd (run (statsFetcher 5 ada_args)
                           world_fails_on_second_page)) = 2.
Proof.
  assert (Hi : nth_error (snd (run (statsFetcher 5 ada_args)
                                   world_fails_on_second_page)) 1
               = Some (request_at ada_args (Some "c1"),
                       failure [rate_limited]))
    by reflexivity.
  split; [exact Hi|].
  exact (error_page_is_returned_verbatim
           world_fails_on_second_page ada_args 5 1 _ _ [rate_limited]
           Hi eq_refl).
Defined.

Lemma page_without_user_throws_type_error_witness :
  run (fetchStats 5 (Some "ada") false [] true false false) world_null_user
  = (Threw TypeError,
     [(request_at ada_args None, null_user)]).
Proof.
  exact (proj2 (proj2 (page_without_user_throws_type_error
                         world_null_user 5 0 (Some "ada") false []
                         true false false
                         (request_at ada_args None) null_user
                         eq_refl eq_refl eq_refl)) eq_refl).
Defined.

Lemma merged_result_keeps_first_page_scalars_witness :
  exists res t u,
    run (statsFetcher 5 ada_args) world_multi_page = (Returned res, t)
    /\ List.length t = 2
    /\ res_user res = Some u
    /\ name u = Some "Ada Lovelace"
    /\ mergedPullRequests u = Some {| totalCount := 5 |}
    /\ pageInfo (repositories u)
       = {| hasNextPage := true; endCursor := Some "c1" |}.
Proof.
  do 2 eexists.
  destruct (merged_result_keeps_first_page_scalars
              world_multi_page ada_args 5 _ _ eq_refl eq_refl)
    as (u0 & u & Hu0 & Hu & Hn & _ & _ & Hm & _ & _ & _ & _ & _ & Hp).
  injection Hu0 as <-.
  exists u. split; [reflexivity|]. split; [reflexivity|].
  split; [exact Hu|]. split; [exact Hn|]. split; [exact Hm | exact Hp].
Defined.

Lemma walker_continues_when_allowed_witness :
  (1 < List.length (snd (run (statsFetcher 5 ada_args) world_multi_page)))%nat.
Proof.
  refine (walker_continues_when_allowed
            world_multi_page ada_args 5 0
            (request_at ada_args None)
            (stats_page 7 5 [repo "alpha" 5; repo "beta" 3] true "c1")
            eq_refl _ _).
  - split; [reflexivity|]. split; [reflexivity|].
    eexists. split; [reflexivity|]. split; [reflexivity|].
    repeat constructor.
  - repeat constructor.
Defined.

Lemma upstream_error_is_classified_witness :
  run (fetchStats 3 (Some "ada") false [] false false false)
      (world_failing [rate_limited])
  = (Threw (CustomError (Some "API rate limit") (StatusText "Forbidden")),
     [(request_at (args_of (Some "ada") false false false) None,
       failure [rate_limited])])
  /\ run (fetchStats 3 (Some "ada") false [] false false false)
         (world_failing [silent; rate_limited])
     = (Threw (CustomError
                 (Some "Something went wrong while trying to retrieve the stats data using the GraphQL API.")
                 GRAPHQL_ERROR),
        [(request_at (args_of (Some "ada") false false false) None,
          failure [silent; rate_limited])]).
Proof.
  split.
  - refine (proj1 (upstream_error_is_classified
                     (world_failing [rate_limited]) 3 (Some "ada") false []
                     false false false _ _ rate_limited []
                     eq_refl eq_refl eq_refl _) _ eq_refl _);
      discriminate.
  - refine (proj2 (upstream_error_is_classified
                     (world_failing [silent; rate_limited]) 3 (Some "ada")
                     false [] false false false _ _ silent [rate_limited]
                     eq_refl eq_refl eq_refl _) eq_refl).
    discriminate.
Defined.

Lemma error_array_never_yields_a_record_witness :
  (exists e,
     run (fetchStats 5 (Some "ada") false [] true false false)
         world_fails_on_second_page
     = (Threw e,
        snd (run (statsFetcher 5 ada_args) world_fails_on_second_page)))
  /\ run (fetchStats 5 (Some "ada") false [] true false false)
         (world_failing [])
     = (Threw TypeError,
        snd (run (statsFetcher 5 ada_args) (world_failing []))).
Proof.
  split.
  - exact (proj1 (proj2 (error_array_never_yields_a_record
                           world_fails_on_second_page 5 1 (Some "ada") false
                           [] true false false
                           (request_at ada_args (Some "c1"))
                           (failure [rate_limited]) [rate_limited]
                           eq_refl eq_refl eq_refl))).
  - exact (proj2 (proj2 (error_array_never_yields_a_record
                           (world_failing []) 5 0 (Some "ada") false
                           [] true false false
                           (request_at ada_args None)
                           (failure []) []
                           eq_refl eq_refl eq_refl)) eq_refl).
Defined.
End WalkerExtrasWitnesses.

(* ================================================================== *)
(** ** The aggregation of the earlier top-languages revision *)

Section ObjectKeys.
Context {V : Type}.

Lemma obj_get_set (o : Obj V) k n v :
  obj_get (obj_set o k v) n = if k =? n then Some v else obj_get o n.
Proof.
  destruct (String.eqb_spec k n) as [<-|Hne].
  - apply obj_get_set_same.
  - now apply obj_get_set_other.
Qed.

Lemma obj_get_in_keys (o : Obj V) k :
  obj_get o k = None <-> ~ In k (keys o).
Proof.
  induction o as [|[k0 v0] o IH]; simpl.
  - tauto.
  - destruct (String.eqb_spec k0 k) as [->|Hne].
    + split; [discriminate | tauto].
    + rewrite IH. tauto.
Qed.

Lemma existsb_in_keys (l : list string) k :
  existsb (String.eqb k) l = true <-> In k l.
Proof.
  rewrite existsb_exists. split.
  - intros (x & Hx & Heq). apply String.eqb_eq in Heq. now subst.
  - intros H. exists k. split; [exact H | apply String.eqb_refl].
Qed.

Lemma keys_replace (o : Obj V) k v : keys (obj_replace o k v) = keys o.
Proof.
  induction o as [|[k0 v0] o IH]; simpl; [reflexivity|].
  destruct (k0 =? k); simpl; [reflexivity | now rewrite IH].
Qed.

Lemma keys_insert_In (o : Obj V) i k v n :
  In n (keys (obj_insert_index i k v o)) <-> n = k \/ In n (keys o).
Proof.
  induction o as [|[k0 v0] o IH]; simpl.
  - intuition congruence.
  - destruct (array_index k0) as [m|]; [destruct (m <? i)%N|]; simpl;
      rewrite ?IH; intuition congruence.
Qed.

Lemma keys_insert_NoDup (o : Obj V) i k v :
  ~ In k (keys o) ->
  NoDup (keys o) ->
  NoDup (keys (obj_insert_index i k v o)).
Proof.
  induction o as [|[k0 v0] o IH]; simpl; intros Hk Hnd.
  - constructor; [tauto | constructor].
  - assert (Hnew : NoDup (k :: k0 :: keys o))
      by (constructor; [simpl; tauto | exact Hnd]).
    destruct (array_index k0) as [m|]; [destruct (m <? i)%N|]; simpl;
      try exact Hnew.
    inversion Hnd as [|? ? Hk0 Hrest]; subst.
    constructor; [|apply IH; tauto].
    rewrite keys_insert_In. intuition congruence.
Qed.


Lemma obj_set_NoDup (o : Obj V) k v :
  NoDup (keys o) -> NoDup (keys (obj_set o k v)).
Proof.
  intros Hnd. unfold obj_set. destruct (obj_get o k) eqn:E.
  - now rewrite keys_replace.
  - apply obj_get_in_keys in E. destruct (array_index k).
    + now apply keys_insert_NoDup.
    + unfold keys in *. rewrite map_app. simpl.
      apply NoDup_rev in Hnd. rewrite <- (rev_involutive (map fst o ++ [k])).
      apply NoDup_rev. rewrite rev_app_distr. simpl.
      constructor; [now rewrite <- in_rev | exact Hnd].
Qed.


Lemma obj_get_app_new (o o' : Obj V) k :
  ~ In k (keys o) -> obj_get (o ++ o') k = obj_get o' k.
Proof.
  induction o as [|[k0 v0] o IH]; simpl; intros H; [reflexivity|].
  destruct (String.eqb_spec k0 k); [tauto | apply IH; tauto].
Qed.

Lemma obj_replace_at (o rest : Obj V) k l v :
  ~ In k (keys o) ->
  obj_replace (o ++ (k, l) :: rest) k v = o ++ (k, v) :: rest.
Proof.
  induction o as [|[k0 v0] o IH]; simpl; intros H.
  - now rewrite String.eqb_refl.
  - destruct (String.eqb_spec k0 k); [tauto|]. rewrite IH; tauto.
Qed.

(** Setting a key that is there changes its value in place. *)
Lemma obj_set_at (o rest : Obj V) k l v :
  ~ In k (keys o) ->
  obj_set (o ++ (k, l) :: rest) k v = o ++ (k, v) :: rest.
Proof.
  intros H. unfold obj_set. rewrite (obj_get_app_new _ _ _ H). simpl.
  rewrite String.eqb_refl. now apply obj_replace_at.
Qed.
End ObjectKeys.

Section AggregationFacts.
Import TopLangs Aggregation.

Lemma sort_without_order {A} (l : list A) :
  js_sort (fun _ _ => nan - nan)%float l = l.
Proof.
  induction l as [|x l IH]; [reflexivity|].
  change (js_sort (fun _ _ => nan - nan)%float (x :: l))
    with (sort_insert (fun _ _ : A => nan - nan)%float x
            (js_sort (fun _ _ => nan - nan)%float l)).
  rewrite IH. destruct l; reflexivity.
Qed.

Lemma repoToHide_lookup exclude_repo :
  forall (o : Obj bool) n,
    obj_get (fold_left (fun repoToHide repoName =>
                          obj_assign_primitive repoToHide repoName true)
                       exclude_repo o) n
    = if existsb (String.eqb n) exclude_repo && negb (n =? "__proto__")
      then Some true
      else obj_get o n.
Proof.
  induction exclude_repo as [|k excl IH]; intros o n; [reflexivity|].
  cbn [fold_left existsb]. rewrite IH. unfold obj_assign_primitive.
  destruct (existsb (String.eqb n) excl); simpl.
  - rewrite orb_true_r. simpl.
    destruct (n =? "__proto__") eqn:En; simpl; [|reflexivity].
    apply String.eqb_eq in En. subst n.
    destruct (String.eqb_spec k "__proto__"); [reflexivity|].
    now apply obj_get_set_other.
  - rewrite orb_false_r.
    destruct (String.eqb_spec n k) as [->|Hne]; simpl.
    + destruct (k =? "__proto__"); simpl; [reflexivity|].
      apply obj_get_set_same.
    + destruct (k =? "__proto__"); [reflexivity|].
      apply obj_get_set_other. congruence.
Qed.

Lemma not_hidden_dropped exclude_repo r :
  TopLanguagesFetcher_part000.not_hidden
    (TopLanguagesFetcher_part000.build_repoToHide exclude_repo) r
  = negb (dropped exclude_repo r).
Proof.
  unfold TopLanguagesFetcher_part000.not_hidden,
         TopLanguagesFetcher_part000.build_repoToHide, dropped, excluded.
  rewrite repoToHide_lookup. simpl.
  destruct (existsb (String.eqb (Repo.name r)) exclude_repo); simpl;
    [|reflexivity].
  destruct (Repo.name r =? "__proto__") eqn:E; simpl; [|reflexivity].
  unfold inherited. rewrite E. now rewrite orb_true_r.
Qed.

Lemma visible_repos_filter exclude_repo repoNodes :
  TopLanguagesFetcher_part000.visible_repos exclude_repo repoNodes
  = filter (fun r => negb (dropped exclude_repo r)) repoNodes.
Proof.
  unfold TopLanguagesFetcher_part000.visible_repos.
  rewrite sort_without_order. apply filter_ext. intros r.
  apply not_hidden_dropped.
Qed.

Lemma dropped_false exclude_repo r :
  dropped exclude_repo r = false
  <-> ~ In (Repo.name r) exclude_repo /\ inherited (Repo.name r) = false.
Proof.
  unfold dropped, excluded. rewrite orb_false_iff.
  rewrite <- existsb_in_keys.
  destruct (existsb (String.eqb (Repo.name r)) exclude_repo);
    intuition congruence.
Qed.

Lemma flatten_from repoNodes :
  forall acc,
    fold_left (fun acc curr => edges (Repo.languages curr) ++ acc)
      (filter (fun node =>
                 (0 <? List.length (edges (Repo.languages node)))%nat)
              repoNodes)
      acc
    = List.concat (map edges_of (rev repoNodes)) ++ acc.
Proof.
  induction repoNodes as [|r l IH]; intros acc; [reflexivity|].
  simpl rev. rewrite map_app, concat_app. simpl map. simpl List.concat.
  rewrite app_nil_r, <- app_assoc.
  replace (edges_of r) with (edges (Repo.languages r)) by reflexivity.
  simpl filter.
  destruct (edges (Repo.languages r)) as [|e es] eqn:E; simpl.
  - apply IH.
  - rewrite E. apply IH.
Qed.

Lemma flatten_concat repoNodes :
  TopLanguagesFetcher_part000.flatten repoNodes
  = List.concat (map edges_of (rev repoNodes)).
Proof.
  unfold TopLanguagesFetcher_part000.flatten.
  now rewrite flatten_from, app_nil_r.
Qed.

(** The fields of the entry under [n] behind one more edge. *)
(** Every step sets one entry, under the name of the edge. *)
Lemma merge_edge_sets acc repoCount prev :
  exists l,
    fst (TopLanguagesFetcher_part000.merge_edge (acc, repoCount) prev)
    = obj_set acc (edge_name prev) l
    /\ LangStat.name l = edge_name prev
    /\ LangStat.color l = Lang.color (Edge.node prev).
Proof.
  unfold TopLanguagesFetcher_part000.merge_edge, edge_name.
  set (name := Lang.name (Edge.node prev)).
  destruct (obj_get acc name) as [found|];
    [destruct (name =? LangStat.name found)
    |destruct (inherits_method name)];
    cbn [fst]; eexists; repeat split.
Qed.

Lemma merge_edge_size acc repoCount prev n :
  keyed_by_name acc ->
  inherits_method n = false ->
  option_map LangStat.size
    (obj_get (fst (TopLanguagesFetcher_part000.merge_edge (acc, repoCount)
                     prev)) n)
  = add_edge_size n (option_map LangStat.size (obj_get acc n)) prev.
Proof.
  intros Hkeyed Hplain. unfold TopLanguagesFetcher_part000.merge_edge,
                               add_edge_size, named.
  set (name := Lang.name (Edge.node prev)).
  destruct (String.eqb_spec n name) as [->|Hne].
  - rewrite Hplain. destruct (obj_get acc name) as [found|] eqn:E.
    + rewrite (Hkeyed _ _ E), String.eqb_refl. cbn [fst option_map].
      now rewrite obj_get_set_same.
    + cbn [fst option_map]. now rewrite obj_get_set_same.
  - destruct (obj_get acc name) as [found|];
      [destruct (name =? LangStat.name found)
      |destruct (inherits_method name)];
      cbn [fst]; rewrite obj_get_set_other; congruence.
Qed.

Lemma merge_edge_color acc repoCount prev n :
  option_map LangStat.color
    (obj_get (fst (TopLanguagesFetcher_part000.merge_edge (acc, repoCount)
                     prev)) n)
  = if named n prev then Some (Lang.color (Edge.node prev))
    else option_map LangStat.color (obj_get acc n).
Proof.
  destruct (merge_edge_sets acc repoCount prev) as (l & -> & _ & Hc).
  unfold named, edge_name. rewrite obj_get_set, (String.eqb_sym n).
  destruct (Lang.name (Edge.node prev) =? n); [|reflexivity].
  simpl. now rewrite Hc.
Qed.




Lemma fold_merge_edge_NoDup flat :
  forall state : TopLangData * float,
    NoDup (keys (fst state)) ->
    NoDup (keys (fst (fold_left TopLanguagesFetcher_part000.merge_edge
                        flat state))).
Proof.
  induction flat as [|prev flat IH]; intros [acc repoCount] H;
    [exact H|].
  cbn [fold_left].
  apply (IH (TopLanguagesFetcher_part000.merge_edge (acc, repoCount) prev)).
  destruct (merge_edge_sets acc repoCount prev) as (l & Heq & _).
  rewrite Heq. now apply obj_set_NoDup.
Qed.

Lemma aggregate_NoDup flat :
  NoDup (keys (TopLanguagesFetcher_part000.aggregate flat)).
Proof. apply fold_merge_edge_NoDup. constructor. Qed.

Lemma first_seen_NoDup names :
  forall seen,
    NoDup seen ->
    NoDup (fold_left (fun seen n => if existsb (String.eqb n) seen
                                    then seen else seen ++ [n])
                     names seen).
Proof.
  induction names as [|n names IH]; intros seen H; simpl; [exact H|].
  apply IH. destruct (existsb (String.eqb n) seen) eqn:E; [exact H|].
  apply NoDup_rev in H. rewrite <- (rev_involutive (seen ++ [n])).
  apply NoDup_rev. rewrite rev_app_distr. simpl. constructor; [|exact H].
  rewrite <- in_rev. intros Hin.
  assert (existsb (String.eqb n) seen = true)
    by (apply existsb_exists; exists n; split;
        [exact Hin | apply String.eqb_refl]).
  congruence.
Qed.

Lemma first_seen_In names :
  forall seen n,
    In n (fold_left (fun seen n => if existsb (String.eqb n) seen
                                   then seen else seen ++ [n])
                    names seen)
    <-> In n seen \/ In n names.
Proof.
  induction names as [|m names IH]; intros seen n; simpl; [tauto|].
  rewrite IH. destruct (existsb (String.eqb m) seen) eqn:E.
  - apply existsb_exists in E as (x & Hx & Heq).
    apply String.eqb_eq in Heq. subst x.
    split; [tauto|]. intros [H|[<-|H]]; auto.
  - rewrite in_app_iff. simpl. tauto.
Qed.

(** Updating the size under every key of an object whose keys are
    distinct is a map over its entries. *)
Lemma update_all_sizes (f : LangStat.t -> float) (todo : TopLangData) :
  forall done,
    NoDup (keys (done ++ todo)) ->
    fold_left (fun o key => update_size o key f) (keys todo)
              (map (fun e => (fst e, LangStat.set_size (snd e) (f (snd e))))
                   done ++ todo)
    = map (fun e => (fst e, LangStat.set_size (snd e) (f (snd e))))
          (done ++ todo).
Proof.
  induction todo as [|[k l] todo IH]; intros done Hnd; simpl.
  - now rewrite !app_nil_r.
  - assert (Hk : ~ In k (keys (map (fun e => (fst e,
                    LangStat.set_size (snd e) (f (snd e)))) done))).
    { unfold keys in *. rewrite map_map. simpl.
      rewrite map_app in Hnd. simpl in Hnd.
      apply NoDup_remove_2 in Hnd. rewrite in_app_iff in Hnd. tauto. }
    unfold update_size at 2.
    rewrite (obj_get_app_new _ _ _ Hk). simpl. rewrite String.eqb_refl.
    rewrite (obj_set_at _ _ _ _ _ Hk).
    specialize (IH (done ++ [(k, l)])).
    rewrite <- app_assoc in IH. simpl in IH.
    rewrite map_app in IH. simpl in IH. rewrite <- app_assoc in IH.
    simpl in IH. apply IH. exact Hnd.
Qed.
End AggregationFacts.

Section AggregationExtras.
Import TopLangs Aggregation.

(** X8.  The exclusion filter of the earlier revision keeps a repository
    exactly when its name is neither one of [exclude_repo] (an exact,
    case-sensitive comparison) nor the name of a member of
    [Object.prototype] (constructor, toString, __proto__, ...: the lookup
    table is a plain object, and reading such a name from it is truthy).
    The repositories kept stay in the order they came in: the [sort]
    before the filter compares the absent [size] properties and moves
    nothing. *)
Theorem excluded_repositories_are_dropped :
  forall (exclude_repo : list string) (repoNodes : list Repo.t),
    TopLanguagesFetcher_part000.visible_repos exclude_repo repoNodes
    = filter (fun r => negb (dropped exclude_repo r)) repoNodes
    /\ (forall r,
          In r (TopLanguagesFetcher_part000.visible_repos
                  exclude_repo repoNodes)
          <-> In r repoNodes
              /\ ~ In (Repo.name r) exclude_repo
              /\ inherited (Repo.name r) = false).
Proof.
  intros exclude_repo repoNodes.
  split; [apply visible_repos_filter|].
  intros r. rewrite visible_repos_filter, filter_In, negb_true_iff.
  now rewrite dropped_false.
Qed.

(** X9.  The flattened edge sequence holds the edges of the kept
    repositories and nothing else: the edge lists are concatenated with
    the last repository first, a repository without edges adds nothing,
    and a repository that the filter drops (its name is in [exclude_repo]
    or names a member of [Object.prototype]) contributes no edge at
    all. *)
Theorem flatten_holds_edges_of_kept_repositories :
  forall (exclude_repo : list string) (repoNodes : list Repo.t),
    TopLanguagesFetcher_part000.flatten
      (TopLanguagesFetcher_part000.visible_repos exclude_repo repoNodes)
    = List.concat
        (map edges_of
             (rev (filter (fun r => negb (dropped exclude_repo r))
                          repoNodes)))
    /\ (forall e,
          In e (TopLanguagesFetcher_part000.flatten
                  (TopLanguagesFetcher_part000.visible_repos
                     exclude_repo repoNodes))
          <-> exists r,
                In r repoNodes
                /\ ~ In (Repo.name r) exclude_repo
                /\ inherited (Repo.name r) = false
                /\ In e (edges_of r)).
Proof.
  intros exclude_repo repoNodes.
  rewrite flatten_concat, visible_repos_filter.
  split; [reflexivity|].
  intros e. rewrite in_concat. split.
  - intros (es & Hes & He). apply in_map_iff in Hes as (r & <- & Hr).
    apply in_rev, filter_In in Hr as [Hin Hkeep].
    apply negb_true_iff, dropped_false in Hkeep as [Hname Hplain].
    exists r. auto.
  - intros (r & Hin & Hname & Hplain & He).
    exists (edges_of r). split; [|exact He].
    apply in_map, in_rev. rewrite rev_involutive. apply filter_In.
    split; [exact Hin|]. apply negb_true_iff, dropped_false. auto.
Qed.

(** X10.  In the aggregate, the size of a language whose name is not a
    method inherited from [Object.prototype] is the sum of the sizes of
    all edges of that name, added in the order of the flattened sequence;
    a name that no edge carries has no entry.  The colour of every
    language is that of the last edge of its name. *)
Theorem aggregate_totals_sizes_by_name :
  forall (flat : list Edge.t) (name : string),
    (inherits_method name = false ->
     option_map LangStat.size
       (obj_get (TopLanguagesFetcher_part000.aggregate flat) name)
     = total_size name flat)
    /\ option_map LangStat.color
         (obj_get (TopLanguagesFetcher_part000.aggregate flat) name)
       = last_color name flat.
Proof.
  intros flat name. induction flat as [|prev flat [IHs IHc]] using rev_ind.
  - split; reflexivity.
  - pose proof (aggregate_keyed flat) as Hkeyed.
    rewrite aggregate_snoc.
    unfold total_size, last_color. rewrite !fold_left_app. simpl.
    fold (total_size name flat). fold (last_color name flat).
    unfold TopLanguagesFetcher_part000.aggregate in *.
    destruct (fold_left TopLanguagesFetcher_part000.merge_edge flat
                        ([], 0%float)) as [acc repoCount].
    cbn [fst] in *. split.
    + intros Hplain.
      now rewrite (merge_edge_size _ _ _ _ Hkeyed Hplain), (IHs Hplain).
    + now rewrite merge_edge_color, IHc.
Qed.


(** X12.  The weighting step changes sizes only: the weighted languages
    are the entries of the aggregate, in the same order and with the same
    names, colours and counts, each size replaced once by
    [Math.pow(size, size_weight) * Math.pow(count, count_weight)]. *)
Theorem weights_rewrite_sizes_only :
  forall (pow : float -> float -> float) (exclude_repo : list string)
         (size_weight count_weight : float) (repoNodes : list Repo.t),
    TopLanguagesFetcher_part000.weighted_languages
      pow exclude_repo size_weight count_weight repoNodes
    = map (weighted pow size_weight count_weight)
          (TopLanguagesFetcher_part000.aggregate
             (TopLanguagesFetcher_part000.flatten
                (TopLanguagesFetcher_part000.visible_repos
                   exclude_repo repoNodes))).
Proof.
  intros pow exclude_repo size_weight count_weight repoNodes.
  unfold TopLanguagesFetcher_part000.weighted_languages,
         TopLanguagesFetcher_part000.weigh.
  set (o := TopLanguagesFetcher_part000.aggregate _).
  apply (update_all_sizes
           (fun l => (pow (LangStat.size l) size_weight
                      * pow (LangStat.count l) count_weight)%float)
           o []).
  simpl. apply aggregate_NoDup.
Qed.
End AggregationExtras.

Section EarlierRevisionExtras.
Import TopLangs.

(** X13.  Called with a non-empty username, the earlier revision makes
    exactly one request, the languages query with the variable [login]
    alone, whatever comes back.  It returns (its literal table) exactly
    when the answer has no error array and a [user] object; an answer
    with neither makes it throw a [TypeError], and an answer with an error
    array makes it throw. *)
Theorem earlier_revision_makes_one_request :
  forall (w : World) (username : JsString) (exclude_repo : list string)
         (size_weight count_weight : float),
    truthy username = true ->
    let req := fetcher (login_only username) in
    let res := retryer w 0 req in
    let outcome :=
      run (TopLanguagesFetcher_part000.fetchTopLanguages
             username exclude_repo size_weight count_weight) w in
    snd outcome = [(req, res)]
    /\ query req = TOP_LANGS_QUERY
    /\ v_login (variables req) = username
    /\ (errors (data res) = None ->
        (exists u, res_user res = Some u) ->
        fst outcome = Returned TopLanguagesFetcher_part000.topLangs)
    /\ (errors (data res) = None ->
        res_user res = None ->
        fst outcome = Threw TypeError)
    /\ (forall errs,
          errors (data res) = Some errs -> exists e, fst outcome = Threw e).
Proof.
  intros w username excl sw cw Hname req res outcome.
  unfold outcome, run, TopLanguagesFetcher_part000.fetchTopLanguages.
  rewrite Hname. cbn [negb]. unfold bind, call, ask. cbn [List.length app].
  fold req. fold res.
  destruct (errors (data res)) as [errs|] eqn:He.
  - destruct (@part000_throw_upstream_error_throws TopLangData w res errs
                [(req, res)]) as (e & Hthrow).
    rewrite Hthrow. cbn [fst snd].
    repeat split; try discriminate. intros errs' _. now exists e.
  - destruct (res_user res) as [u|] eqn:Hu; unfold ret, throw; cbn [fst snd];
      repeat split; try discriminate; try reflexivity.
    + intros _ (u & Hu'). discriminate.
Qed.

(** X14.  The earlier revision classifies an error array by its first
    element alone: type "NOT_FOUND" gives [USER_NOT_FOUND] with the
    upstream message or "Could not fetch user."; otherwise a non-empty
    message is wrapped by [wrapTextMultiline(message, 90, 1)] and its
    first line thrown with the response's [statusText]; otherwise the
    fixed language-data text is thrown with [GRAPHQL_ERROR].  An empty
    array ends in a [TypeError]. *)
Theorem earlier_revision_classifies_errors :
  forall (w : World) (username : JsString) (exclude_repo : list string)
         (size_weight count_weight : float) (errs : list GqlError),
    truthy username = true ->
    let res := retryer w 0 (fetcher (login_only username)) in
    let outcome :=
      fst (run (TopLanguagesFetcher_part000.fetchTopLanguages
                  username exclude_repo size_weight count_weight) w) in
    errors (data res) = Some errs ->
    (errs = [] -> outcome = Threw TypeError)
    /\ (forall e0 rest,
          errs = e0 :: rest ->
          (type e0 = Some "NOT_FOUND" ->
           outcome
           = Threw (CustomError
                      (if truthy (message e0) then message e0
                       else Some "Could not fetch user.")
                      USER_NOT_FOUND))
          /\ (type e0 <> Some "NOT_FOUND" ->
              forall m,
                message e0 = Some m ->
                m <> "" ->
                outcome
                = Threw (CustomError
                           (hd_error (wrapTextMultiline w m 90 1))
                           (StatusText (statusText res))))
          /\ (type e0 <> Some "NOT_FOUND" ->
              truthy (message e0) = false ->
              outcome
              = Threw (CustomError
                         (Some "Something went wrong while trying to retrieve the language data using the GraphQL API.")
                         GRAPHQL_ERROR))).
Proof.
  intros w username excl sw cw errs Hname res outcome He.
  unfold outcome, run, TopLanguagesFetcher_part000.fetchTopLanguages.
  rewrite Hname. cbn [negb]. unfold bind, call, ask. cbn [List.length app].
  fold res. rewrite He.
  unfold TopLanguagesFetcher_part000.throw_upstream_error.
  split; [intros ->; reflexivity|].
  intros e0 rest ->.
  assert (Hne : type e0 <> Some "NOT_FOUND" ->
                strict_eq (type e0) "NOT_FOUND" = false).
  { intros Hty. destruct (type e0) as [ty|]; simpl; [|reflexivity].
    destruct (String.eqb_spec ty "NOT_FOUND"); [subst; congruence|reflexivity]. }
  split; [|split].
  - intros Hty. unfold strict_eq. rewrite Hty. reflexivity.
  - intros Hty m Hm Hnonempty. rewrite (Hne Hty), Hm. simpl.
    destruct (String.eqb_spec m ""); [contradiction | reflexivity].
  - intros Hty Hfalsy. rewrite (Hne Hty), Hfalsy. reflexivity.
Qed.

(** X15.  The second revision kept in part_000 fetches nothing.  With an
    empty username it throws [MissingParamError(["username"])]; with any
    other username it returns one fixed table, the same for all arguments
    and all worlds.  The literal sizes of that table add up to exactly
    100, and the normalized sizes it returns to 99.999999999999986. *)
Theorem second_revision_returns_a_fixed_table :
  forall (w : World) (username : JsString) (exclude_repo : list string)
         (size_weight count_weight : float),
    run (TopLanguagesFetcher_part000_second.fetchTopLanguages
           username exclude_repo size_weight count_weight) w
    = (if truthy username
       then Returned MoreTables.normalized_second
       else Threw (MissingParamError ["username"]),
       [])
    /\ TopLanguagesFetcher_part000_second.sum_sizes
         TopLanguagesFetcher_part000_second.customLanguages = 100%float
    /\ TopLanguagesFetcher_part000_second.sum_sizes
         MoreTables.normalized_second = 99.999999999999986%float.
Proof.
  intros w username excl sw cw. split.
  - unfold run, TopLanguagesFetcher_part000_second.fetchTopLanguages.
    destruct (truthy username); cbn [negb]; [|reflexivity].
    unfold try_catch, ret.
    assert (Hbody : TopLanguagesFetcher_part000_second.top_langs_body
                    = MoreTables.normalized_second)
      by (vm_compute; reflexivity).
    now rewrite Hbody.
  - split; vm_compute; reflexivity.
Qed.
End EarlierRevisionExtras.

Section AggregationWitnesses.
Import TopLangs Aggregation LangSamples MoreLangSamples.

Lemma excluded_repositories_are_dropped_witness :
  TopLanguagesFetcher_part000.visible_repos ["two"; "One"] five_repos
  = [repo_one; repo_empty; repo_three]
  /\ In repo_three
        (TopLanguagesFetcher_part000.visible_repos ["two"; "One"] five_repos)
  /\ ~ In repo_constructor
         (TopLanguagesFetcher_part000.visible_repos [] five_repos).
Proof.
  destruct (excluded_repositories_are_dropped ["two"; "One"] five_repos)
    as [Heq Hin].
  split; [rewrite Heq; reflexivity|]. split.
  - apply Hin. split; [simpl; tauto|]. split; [|reflexivity].
    simpl. intros [H|[H|[]]]; discriminate.
  - intros H.
    apply (proj2 (excluded_repositories_are_dropped [] five_repos)) in H
      as (_ & _ & Hplain).
    discriminate.
Defined.

Lemma flatten_holds_edges_of_kept_repositories_witness :
  TopLanguagesFetcher_part000.flatten
    (TopLanguagesFetcher_part000.visible_repos ["two"] five_repos)
  = [ruby 7; python 50; python 300]
  /\ ~ In (go 100)
         (TopLanguagesFetcher_part000.flatten
            (TopLanguagesFetcher_part000.visible_repos ["two"] five_repos)).
Proof.
  destruct (flatten_holds_edges_of_kept_repositories ["two"] five_repos)
    as [Heq Hin].
  split; [rewrite Heq; reflexivity|].
  intros H. apply Hin in H as (r & Hr & Hname & Hplain & He).
  simpl in Hr.
  destruct Hr as [<-|[<-|[<-|[<-|[<-|[]]]]]]; simpl in He, Hname, Hplain.
  - destruct He as [He|[]]. discriminate.
  - destruct He.
  - apply Hname. now left.
  - destruct He as [He|[He|[]]]; discriminate.
  - discriminate.
Defined.

Lemma aggregate_totals_sizes_by_name_witness :
  option_map LangStat.size
    (obj_get (TopLanguagesFetcher_part000.aggregate
                [ruby 7; python 50; python 300; go 100; ruby 1])
             "Python")
  = Some 350%float.
Proof.
  rewrite (proj1 (aggregate_totals_sizes_by_name
                    [ruby 7; python 50; python 300; go 100; ruby 1]
                    "Python") eq_refl).
  reflexivity.
Defined.


(** Array-index names are enumerated first, in numeric order. *)
Example index_names_come_first :
  keys (TopLanguagesFetcher_part000.aggregate
          [edge "10" 1; python 50; edge "9" 2])
  = ["9"; "10"; "Python"].
Proof. vm_compute. reflexivity. Qed.

(** A first edge called after an inherited method is merged with that
    method: its size is [NaN], and it does not reset the counter. *)
Example inherited_method_name_is_merged :
  TopLanguagesFetcher_part000.aggregate [python 50; edge "toString" 5]
  = [ ("Python", {| LangStat.name := "Python";
                    LangStat.color := Some "#3572A5";
                    LangStat.size := 50; LangStat.count := 1 |});
      ("toString", {| LangStat.name := "toString";
                      LangStat.color := None;
                      LangStat.size := nan; LangStat.count := 2 |}) ]%float.
Proof. vm_compute. reflexivity. Qed.

Lemma earlier_revision_makes_one_request_witness :
  run (TopLanguagesFetcher_part000.fetchTopLanguages (Some "ada") ["two"] 1 0)
      world_two_repos
  = (Returned TopLanguagesFetcher_part000.topLangs,
     [(fetcher (login_only (Some "ada")), two_repos)])
  /\ run (TopLanguagesFetcher_part000.fetchTopLanguages (Some "ada") [] 1 0)
         world_null_user
     = (Threw TypeError,
        [(fetcher (login_only (Some "ada")),
          retryer world_null_user 0 (fetcher (login_only (Some "ada"))))]).
Proof.
  split.
  - destruct (earlier_revision_makes_one_request
                world_two_repos (Some "ada") ["two"] 1%float 0%float eq_refl)
      as (Ht & _ & _ & Hret & _).
    rewrite (surjective_pairing (run _ world_two_repos)).
    rewrite Ht, (Hret eq_refl); [reflexivity|]. eexists. reflexivity.
  - destruct (earlier_revision_makes_one_request
                world_null_user (Some "ada") [] 1%float 0%float eq_refl)
      as (Ht & _ & _ & _ & Hnull & _).
    rewrite (surjective_pairing (run _ world_null_user)).
    rewrite Ht, (Hnull eq_refl eq_refl). reflexivity.
Defined.

Lemma earlier_revision_classifies_errors_witness :
  fst (run (TopLanguagesFetcher_part000.fetchTopLanguages
              (Some "ada") [] 1 0)
           (world_failing [MoreSamples.rate_limited; MoreSamples.silent]))
  = Threw (CustomError (Some "API rate limit") (StatusText "Forbidden"))
  /\ fst (run (TopLanguagesFetcher_part000.fetchTopLanguages
                 (Some "ada") [] 1 0)
              (world_failing [Samples.not_found_error None]))
     = Threw (CustomError (Some "Could not fetch user.") USER_NOT_FOUND)
  /\ fst (run (TopLanguagesFetcher_part000.fetchTopLanguages
                 (Some "ada") [] 1 0)
              (world_failing []))
     = Threw TypeError.
Proof.
  split; [|split].
  - refine (proj1 (proj2 (proj2 (earlier_revision_classifies_errors
                      (world_failing [MoreSamples.rate_limited;
                                      MoreSamples.silent])
                      (Some "ada") [] 1%float 0%float _ eq_refl eq_refl)
                    MoreSamples.rate_limited [MoreSamples.silent] eq_refl))
                  _ _ eq_refl _); discriminate.
  - exact (proj1 (proj2 (earlier_revision_classifies_errors
                      (world_failing [Samples.not_found_error None])
                      (Some "ada") [] 1%float 0%float _ eq_refl eq_refl)
                    (Samples.not_found_error None) [] eq_refl) eq_refl).
  - exact (proj1 (earlier_revision_classifies_errors
                    (world_failing []) (Some "ada") [] 1%float 0%float _
                    eq_refl eq_refl) eq_refl).
Defined.
End AggregationWitnesses.

Section FetchStatsRequests.
Import StatsFetcher Walk Requests.

Lemma fetchStats_trace (w : World) fuel username iac excl f1 f2 f3 :
  truthy username = true ->
  snd (fetchStats fuel username iac excl f1 f2 f3 w [])
  = snd (statsFetcher fuel (args_of username f1 f2 f3) w []).
Proof.
  intros Hname. rewrite (fetchStats_run w _ _ _ _ _ _ _ _ Hname).
  destruct (statsFetcher fuel _ w []) as [[res| e |] t]; try reflexivity.
  destruct (errors (data res)) as [errs|].
  - destruct (@throw_upstream_error_throws w Stats.t res errs t) as (e & He).
    now rewrite He.
  - destruct (res_user res); reflexivity.
Qed.

(** X16.  [fetchStats] makes the requests of the walk and no other: with
    a non-empty username its trace is that of [statsFetcher], every request
    in it carries the username and the three toggles as they were passed,
    and is answered by the transport; [include_all_commits] and
    [exclude_repo] reach no request. *)
Theorem fetchStats_forwards_its_toggles :
  forall (w : World) (fuel : nat) (username : JsString)
         (include_all_commits : bool) (exclude_repo : list string)
         (include_merged_pull_requests include_discussions
          include_discussions_answers : bool),
    truthy username = true ->
    let t := snd (run (fetchStats fuel username include_all_commits
                         exclude_repo include_merged_pull_requests
                         include_discussions include_discussions_answers)
                      w) in
    t = snd (run (statsFetcher fuel
                    (args_of username include_merged_pull_requests
                       include_discussions include_discussions_answers)) w)
    /\ forall i req res,
         nth_error t i = Some (req, res) ->
         res = retryer w i req
         /\ v_login (variables req) = username
         /\ v_includeMergedPullRequests (variables req)
            = Some include_merged_pull_requests
         /\ v_includeDiscussions (variables req) = Some include_discussions
         /\ v_includeDiscussionsAnswers (variables req)
            = Some include_discussions_answers.
Proof.
  intros w fuel username iac excl f1 f2 f3 Hname. cbv zeta. unfold run.
  rewrite (fetchStats_trace w _ _ _ _ _ _ _ Hname).
  split; [reflexivity|].
  intros i req res Hi.
  destruct (loop_trace w (args_of username f1 f2 f3) fuel None None [])
    as (pages & Ht & _ & Ha & _).
  destruct (loop_follows_cursor w (args_of username f1 f2 f3) fuel None None [])
    as (out & pages' & Hrun & Hf).
  simpl in Ha, Hrun. rewrite Hrun in Ht.
  rewrite (statsFetcher_of_loop _ _ _ _ _ _ Hrun) in Hi.
  simpl in Ht, Hi. subst pages'.
  split; [exact (answered_nth w pages 0 Ha i req res Hi)|].
  rewrite (follows_cursor_nth _ pages None i req res Hf Hi).
  repeat split.
Qed.
End FetchStatsRequests.

Section FetchStatsRequestsWitness.
Import StatsFetcher Walk Samples.

Lemma fetchStats_forwards_its_toggles_witness :
  exists req res,
    nth_error (snd (run (fetchStats 5 (Some "ada") true ["alpha"]
                           true false true) world_multi_page)) 1
    = Some (req, res)
    /\ v_login (variables req) = Some "ada"
    /\ v_includeMergedPullRequests (variables req) = Some true
    /\ v_includeDiscussions (variables req) = Some false
    /\ v_includeDiscussionsAnswers (variables req) = Some true.
Proof.
  do 2 eexists.
  assert (Hi : nth_error (snd (run (fetchStats 5 (Some "ada") true ["alpha"]
                                      true false true) world_multi_page)) 1
               = Some (request_at (args_of (Some "ada") true false true)
                                  (Some "c1"),
                       repos_page [repo "gamma" 1; repo "delta" 0] true "c2"))
    by (vm_compute; reflexivity).
  destruct (proj2 (fetchStats_forwards_its_toggles
                     world_multi_page 5 (Some "ada") true ["alpha"]
                     true false true eq_refl) 1 _ _ Hi)
    as (_ & Hl & H1 & H2 & H3).
  split; [exact Hi|]. split; [exact Hl|]. split; [exact H1|].
  split; [exact H2 | exact H3].
Defined.
End FetchStatsRequestsWitness.
